(** * A shallow embedding of [custom_render_engine.py]

    The viewport renderer keeps one [MeshDraw] per mesh object in the
    dictionary [draw_calls], rebuilds entries from scene-change
    notifications ([view_update]) and issues GPU calls on redraw
    ([view_draw]).  Python exceptions are values of [exn]; a computation
    either returns or raises ([result]); code with effects (the GPU
    command stream, the engine's fields) threads a state that survives a
    raise ([M]).  Scalars (float32 array elements, mathutils floats) are
    only ever copied by the code, never computed with, so the development
    is parametric in the scalar type.  [print] calls and the dead store
    [start_time = time.time()] have no counterpart. *)

From stdpp Require Import functions base list strings gmap.

(** ** Exceptions and outcomes *)

(** The two exception classes the code catches, the two that dictionary
    and sequence indexing raise, and [OtherError] for every other class
    (a length mismatch in [foreach_get], a shader that does not compile). *)
Inductive exn : Set :=
  | KeyError
  | IndexError
  | ValueError
  | RuntimeError
  | OtherError.

#[global] Instance exn_eq_dec : EqDecision exn.
Proof. solve_decision. Defined.

Inductive result (A : Type) : Type :=
  | Ok (a : A)
  | Raise (e : exn).
Arguments Ok {A} a.
Arguments Raise {A} e.

#[global] Instance result_ret : MRet result := @Ok.
#[global] Instance result_bind : MBind result :=
  λ A B f m, match m with Ok a => f a | Raise e => Raise e end.
#[global] Instance result_fmap : FMap result :=
  λ A B f m, match m with Ok a => Ok (f a) | Raise e => Raise e end.

(** [try: m except e: h] *)
Definition try_except {A} (m : result A) (e : exn) (h : result A) : result A :=
  match m with
  | Ok a => Ok a
  | Raise e' => if decide (e' = e) then h else Raise e'
  end.

(** [for x in l: s = body x s] on local variables [s]. *)
Fixpoint for_in {A S} (l : list A) (body : A → S → result S) (s : S) : result S :=
  match l with
  | [] => Ok s
  | x :: l' => s' ← body x s; for_in l' body s'
  end.

Definition range (n : nat) : list nat := seq 0 n.

(** Sequence indexing, [l[i]] and [l[i] = x], with Python's bounds check
    (indices here are never negative). *)
Definition getitem {A} (l : list A) (i : nat) : result A :=
  match l !! i with
  | Some x => Ok x
  | None => Raise IndexError
  end.

Definition setitem {A} (l : list A) (i : nat) (x : A) : result (list A) :=
  if decide (i < length l) then Ok (<[i:=x]> l) else Raise IndexError.

(** Dictionary indexing [d[k]]. *)
Definition dict_getitem {V} (d : gmap string V) (k : string) : result V :=
  match d !! k with
  | Some v => Ok v
  | None => Raise KeyError
  end.

(** ** Computations with state *)

(** A state that is kept when the computation raises: what was written
    to the GPU or to [self] before an exception stays written. *)
Definition M (S A : Type) : Type := S → result A * S.

Definition retM {S A} (a : A) : M S A := λ s, (Ok a, s).
Definition raiseM {S A} (e : exn) : M S A := λ s, (Raise e, s).
Definition bindM {S A B} (m : M S A) (k : A → M S B) : M S B :=
  λ s, match m s with
       | (Ok a, s') => k a s'
       | (Raise e, s') => (Raise e, s')
       end.
Definition getM {S} : M S S := λ s, (Ok s, s).
Definition modifyM {S} (f : S → S) : M S unit := λ s, (Ok tt, f s).
Definition liftM {S A} (r : result A) : M S A := λ s, (r, s).

(** [try: m except e: h] *)
Definition try_exceptM {S A} (m : M S A) (e : exn) (h : M S A) : M S A :=
  λ s, match m s with
       | (Ok a, s') => (Ok a, s')
       | (Raise e', s') => if decide (e' = e) then h s' else (Raise e', s')
       end.

Declare Scope py_scope.
Delimit Scope py_scope with py.
Notation "'let*' x ':=' m 'in' k" := (bindM m (λ x, k))
  (at level 10, x name, m at level 100, k at level 200) : py_scope.
Notation "m1 ';;;' m2" := (bindM m1 (λ _, m2))
  (at level 100, m2 at level 200, right associativity) : py_scope.

(** [for x in l: body x] *)
Fixpoint for_each {S A} (l : list A) (body : A → M S unit) : M S unit :=
  match l with
  | [] => retM tt
  | x :: l' => (body x ;;; for_each l' body)%py
  end.

(** [m] keeps [P], whether it returns or raises. *)
Definition preserves {S A} (P : S → Prop) (m : M S A) : Prop :=
  ∀ s, P s → P (m s).2.

(** ** Scalars, vectors and matrices *)

Class Scalar (F : Type) := {
  f0 : F;
  f1 : F;
  scalar_eq_dec :: EqDecision F;
}.

Section Geometry.
Context {F : Type} `{Scalar F}.

(** A 3-float row of a numpy array, or a [mathutils.Vector] of size 3. *)
Definition Vec3 : Type := F * F * F.
(** A 4-float row: an RGBA colour, a matrix row, a quaternion. *)
Definition Vec4 : Type := F * F * F * F.

Definition zero4 : Vec4 := (f0, f0, f0, f0).

(** A 4x4 [mathutils.Matrix], by rows. *)
Record Matrix4 : Type := {
  row0 : Vec4;
  row1 : Vec4;
  row2 : Vec4;
  row3 : Vec4;
}.

Definition rows (m : Matrix4) : list Vec4 := [row0 m; row1 m; row2 m; row3 m].

(** [Matrix.Diagonal(Vector((0, 0, 0, 0)))] *)
Definition Matrix_Diagonal_zero : Matrix4 :=
  {| row0 := zero4; row1 := zero4; row2 := zero4; row3 := zero4 |}.

(** [m[i]] *)
Definition Matrix_getitem (m : Matrix4) (i : nat) : result Vec4 :=
  getitem (rows m) i.

(** [m[i].xyz = v]: the first three components of row [i] are replaced,
    the fourth is kept. *)
Definition set_xyz (r : Vec4) (v : Vec3) : Vec4 :=
  let '(_, _, _, w) := r in
  let '(x, y, z) := v in
  (x, y, z, w).

Definition Matrix_set_row (m : Matrix4) (i : nat) (r : Vec4) : result Matrix4 :=
  match i with
  | 0 => Ok {| row0 := r; row1 := row1 m; row2 := row2 m; row3 := row3 m |}
  | 1 => Ok {| row0 := row0 m; row1 := r; row2 := row2 m; row3 := row3 m |}
  | 2 => Ok {| row0 := row0 m; row1 := row1 m; row2 := r; row3 := row3 m |}
  | 3 => Ok {| row0 := row0 m; row1 := row1 m; row2 := row2 m; row3 := r |}
  | _ => Raise IndexError
  end.

Definition Matrix_set_row_xyz (m : Matrix4) (i : nat) (v : Vec3) : result Matrix4 :=
  r ← Matrix_getitem m i;
  Matrix_set_row m i (set_xyz r v).

(** [m.transposed()] *)
Definition transposed (m : Matrix4) : Matrix4 :=
  let '(a0, a1, a2, a3) := row0 m in
  let '(b0, b1, b2, b3) := row1 m in
  let '(c0, c1, c2, c3) := row2 m in
  let '(d0, d1, d2, d3) := row3 m in
  {| row0 := (a0, b0, c0, d0);
     row1 := (a1, b1, c1, d1);
     row2 := (a2, b2, c2, d2);
     row3 := (a3, b3, c3, d3) |}.

End Geometry.
Arguments Vec3 F : clear implicits.
Arguments Vec4 F : clear implicits.
Arguments Matrix4 F : clear implicits.

(** ** The host's mesh data, as the builder reads it *)

Section Mesh.
Context {F : Type} `{Scalar F}.

(** [mesh.vertices[i]] *)
Record MeshVertex : Type := { co : Vec3 F }.

(** [mesh.loops[i]]: a face corner, with the vertex it sits on and its
    shading normal. *)
Record MeshLoop : Type := {
  vertex_index : nat;
  normal : Vec3 F;
}.

(** [mesh.loop_triangles[i]] *)
Record MeshLoopTriangle : Type := { tri_loops : nat * nat * nat }.

(** [mesh.vertex_colors.active.data[i]] *)
Record MeshLoopColor : Type := { color : Vec4 F }.

(** A [bpy.types.Mesh] as [MeshDraw.__init__] sees it.  [loop_triangles]
    is the triangulated view that [mesh.calc_loop_triangles()] leaves in
    the mesh, [calc_tangents] the outcome of [mesh.calc_tangents()], and
    [vertex_colors_active] is [None] when the mesh has no active colour
    layer. *)
Record Mesh : Type := {
  vertices : list MeshVertex;
  loops : list MeshLoop;
  loop_triangles : list MeshLoopTriangle;
  vertex_colors_active : option (list MeshLoopColor);
  calc_tangents : result unit;
}.

(** What the host guarantees of a mesh: loops sit on existing vertices,
    triangles join existing loops, and a colour layer has one entry per
    loop. *)
Definition loops_on_vertices (mesh : Mesh) : Prop :=
  Forall (λ l, vertex_index l < length (vertices mesh)) (loops mesh).



Definition color_layer_fits (mesh : Mesh) : Prop :=
  match vertex_colors_active mesh with
  | Some layer => length layer = length (loops mesh)
  | None => True
  end.

(** ** numpy arrays and [foreach_get] *)

(** What freshly allocated, uninitialised array memory holds. *)
Record Uninit : Type := {
  junk_float : F;
  junk_int : nat;
}.

Definition junk3 (mem : Uninit) : Vec3 F :=
  (junk_float mem, junk_float mem, junk_float mem).

(** [np.empty((n, k))]: [n] rows of whatever the memory held. *)
Definition np_empty {A} (junk : A) (n : nat) : list A := replicate n junk.

(** [np.zeros((n, 4))] *)
Definition np_zeros4 (n : nat) : list (Vec4 F) := replicate n zero4.

(** [coll.foreach_get(attr, np.reshape(arr, len * k))]: the host fills
    the whole of [arr] with the attribute of every element.  [__init__]
    allocates every array with the length of the collection that fills
    it, but for the colour array, which has one row per loop as the host
    keeps its colour layers.  What the host does with an array of another
    length is outside this model, which has it raise. *)
Definition foreach_get {A B} (coll : list A) (attr : A → B) (arr : list B)
  : result (list B) :=
  if decide (length arr = length coll) then Ok (attr <$> coll)
  else Raise OtherError.

(** ** Scene objects *)

Inductive light_type : Set := SUN | POINT | SPOT | AREA.

(** [object.data]: a mesh, a light, or anything else (a camera, a curve,
    nothing at all for an empty). *)
Inductive object_data : Type :=
  | MeshData (mesh : Mesh)
  | LightData (type : light_type)
  | OtherData.

Inductive object_type : Set := MESH | LIGHT | OTHER.

#[global] Instance light_type_eq_dec : EqDecision light_type.
Proof. solve_decision. Defined.
#[global] Instance object_type_eq_dec : EqDecision object_type.
Proof. solve_decision. Defined.

(** A [bpy.types.Object]. *)
Record Object : Type := {
  name : string;
  data : object_data;
  matrix_world : Matrix4 F;
}.

(** [object.type]: the host derives it from the kind of [object.data]. *)
Definition type (object : Object) : object_type :=
  match data object with
  | MeshData _ => MESH
  | LightData _ => LIGHT
  | OtherData => OTHER
  end.

(** ** [MeshDraw] *)

(** A compiled shader program, by the uniform names it exposes. *)
Record GPUShader : Type := { uniform_names : list string }.

(** The vertex and index data handed to [batch_for_shader]: attributes
    ["position"], ["normal"], ["color"] and the triangle indices. *)
Record MeshBuffer : Type := {
  positions : list (Vec3 F);
  normals : list (Vec3 F);
  colors : list (Vec4 F);
  indices : list (nat * nat * nat);
}.

Definition batch_for_shader (shader : GPUShader)
    (position normal : list (Vec3 F)) (color : list (Vec4 F))
    (indices : list (nat * nat * nat)) : MeshBuffer :=
  {| positions := position; normals := normal; colors := color;
     indices := indices |}.

(** A [MeshDraw] instance.  [md_id] is the identity of the Python
    object: two instances built from the same mesh have equal contents
    and different identities.  [object] is the attribute that
    [view_update] sets after construction. *)
Record MeshDraw : Type := {
  md_id : nat;
  transform : option (Matrix4 F);
  shader : GPUShader;
  batch : MeshBuffer;
  object : option Object;
}.

Definition set_object (draw : MeshDraw) (o : Object) : MeshDraw :=
  {| md_id := md_id draw; transform := transform draw; shader := shader draw;
     batch := batch draw; object := Some o |}.

(** [MeshDraw.__init__(self, mesh, transform=None)].  [GPUShader_new] is
    the outcome of compiling the three GLSL sources, which are read from
    files outside the repository's Python source. *)
Definition MeshDraw_init (GPUShader_new : result GPUShader) (mem : Uninit)
    (self_id : nat) (mesh : Mesh) (transform : option (Matrix4 F))
  : result MeshDraw :=
  (* mesh.calc_loop_triangles() *)
  let use_split_normals := true in
  use_split_normals ←
    try_except (calc_tangents mesh ≫= λ _, Ok use_split_normals)
      RuntimeError (Ok false);
  let vertices_ := np_empty (junk3 mem) (length (loops mesh)) in
  let color_ := np_zeros4 (length (loops mesh)) in
  let normals := np_empty (junk3 mem) (length (loops mesh)) in
  let indices :=
    np_empty (junk_int mem, junk_int mem, junk_int mem)
      (length (loop_triangles mesh)) in
  let merged_vertices := np_empty (junk3 mem) (length (vertices mesh)) in
  merged_vertices ← foreach_get (vertices mesh) co merged_vertices;
  let loop_vertices := np_empty (junk_int mem) (length (loops mesh)) in
  loop_vertices ← foreach_get (loops mesh) vertex_index loop_vertices;
  vertices_ ←
    for_in (range (length (loops mesh)))
      (λ i vertices_,
         j ← getitem loop_vertices i;
         v ← getitem merged_vertices j;
         setitem vertices_ i v)
      vertices_;
  indices ← foreach_get (loop_triangles mesh) tri_loops indices;
  normals ← foreach_get (loops mesh) normal normals;
  color_ ←
    match vertex_colors_active mesh with
    | Some layer => foreach_get layer color color_
    | None => Ok color_
    end;
  shader ← GPUShader_new;
  Ok {| md_id := self_id;
        transform := transform;
        shader := shader;
        batch := batch_for_shader shader vertices_ normals color_ indices;
        object := None |}.

End Mesh.
Arguments MeshVertex F : clear implicits.
Arguments MeshLoop F : clear implicits.
Arguments MeshLoopColor F : clear implicits.
Arguments Mesh F : clear implicits.
Arguments Uninit F : clear implicits.
Arguments object_data F : clear implicits.
Arguments Object F : clear implicits.
Arguments MeshBuffer F : clear implicits.
Arguments MeshDraw F : clear implicits.

(** ** The host's math library *)

(** [Matrix.decompose()] and [Vector.rotate()] are floating-point host
    code; the renderer only passes values through them. *)
Class Mathutils (F : Type) `{Scalar F} := {
  Matrix_decompose : Matrix4 F → Vec3 F * Vec4 F * Vec3 F;
  Vector_rotate : Vec3 F → Vec4 F → Vec3 F;
}.

(** ** The dependency graph handed to the callbacks *)

Section Engine.
Context {F : Type} `{Mathutils F}.

(** A datablock: an object, or an ID of another class (a mesh, a
    material, a collection, the scene). *)
Inductive ID : Type :=
  | IDObject (o : Object F)
  | IDOther (name : string).

Record DepsgraphUpdate : Type := {
  update_id : ID;
  is_updated_geometry : bool;
}.

Record DepsgraphObjectInstance : Type := { instance_object : Object F }.

Record Depsgraph : Type := {
  ids : list ID;
  updates : list DepsgraphUpdate;
  object_instances : list DepsgraphObjectInstance;
  id_type_updated : string → bool;
}.

(** ** [CustomRenderEngine] *)

Record CustomRenderEngine : Type := {
  scene_data : option (list nat);
  draw_calls : gmap string (MeshDraw F);
  lights : list (Vec3 F);
  mesh_objects : list (Object F);
}.

(** [CustomRenderEngine.__init__] *)
Definition CustomRenderEngine_init : CustomRenderEngine :=
  {| scene_data := None; draw_calls := ∅; lights := []; mesh_objects := [] |}.

(** Truth value of [self.scene_data]: [None] and the empty list are false. *)
Definition truthy (v : option (list nat)) : bool :=
  match v with
  | None | Some [] => false
  | Some (_ :: _) => true
  end.

(** The engine together with the allocation counter that gives every
    new [MeshDraw] its identity. *)
Record World : Type := {
  self : CustomRenderEngine;
  next_id : nat;
}.

(** Assignments to the fields of [self]. *)
Definition with_scene_data (v : option (list nat)) (w : World) : World :=
  {| self := {| scene_data := v; draw_calls := draw_calls (self w);
                lights := lights (self w);
                mesh_objects := mesh_objects (self w) |};
     next_id := next_id w |}.

Definition with_draw_call (key : string) (draw : MeshDraw F) (w : World) : World :=
  {| self := {| scene_data := scene_data (self w);
                draw_calls := <[key := draw]> (draw_calls (self w));
                lights := lights (self w);
                mesh_objects := mesh_objects (self w) |};
     next_id := next_id w |}.

Definition with_lights (v : list (Vec3 F)) (w : World) : World :=
  {| self := {| scene_data := scene_data (self w);
                draw_calls := draw_calls (self w);
                lights := v;
                mesh_objects := mesh_objects (self w) |};
     next_id := next_id w |}.

Definition with_mesh_objects (v : list (Object F)) (w : World) : World :=
  {| self := {| scene_data := scene_data (self w);
                draw_calls := draw_calls (self w);
                lights := lights (self w);
                mesh_objects := v |};
     next_id := next_id w |}.

Definition with_next_id (n : nat) (w : World) : World :=
  {| self := self w; next_id := n |}.

Definition set_scene_data (v : option (list nat)) : M World unit :=
  modifyM (with_scene_data v).
Definition set_draw_call (key : string) (draw : MeshDraw F) : M World unit :=
  modifyM (with_draw_call key draw).
Definition set_lights (v : list (Vec3 F)) : M World unit :=
  modifyM (with_lights v).
Definition set_mesh_objects (v : list (Object F)) : M World unit :=
  modifyM (with_mesh_objects v).

(** [self.lights.append(v)] and [self.mesh_objects.append(o)] *)
Definition lights_append (v : Vec3 F) : M World unit :=
  (let* w := getM in set_lights (lights (self w) ++ [v]))%py.

Definition mesh_objects_append (o : Object F) : M World unit :=
  (let* w := getM in set_mesh_objects (mesh_objects (self w) ++ [o]))%py.

Section Callbacks.
(** The outcome of compiling the shader sources, and what the memory of
    the arrays of the [n]-th [MeshDraw] held before it was filled. *)
Variable GPUShader_new : result GPUShader.
Variable np_memory : nat → Uninit F.

(** [MeshDraw(mesh)]: allocate the object, then run [__init__] on it. *)
Definition MeshDraw_new (mesh : Mesh F) : M World (MeshDraw F) :=
  (let* w := getM in
   modifyM (with_next_id (S (next_id w))) ;;;
   liftM (MeshDraw_init GPUShader_new (np_memory (next_id w)) (next_id w)
            mesh None))%py.

(** The three lines shared by both branches of [view_update]:
    [draw = MeshDraw(datablock.data); draw.object = datablock;
     self.draw_calls[datablock.name] = draw].  When [datablock.type] is
    ['MESH'] its data is a mesh. *)
Definition rebuild (datablock : Object F) : M World unit :=
  match data datablock with
  | MeshData mesh =>
      (let* draw := MeshDraw_new mesh in
       let draw := set_object draw datablock in
       set_draw_call (name datablock) draw)%py
  | _ => retM tt
  end.

(** [light_direction = Vector((0, 0, 1));
     light_direction.rotate(object.matrix_world.decompose()[1])] *)
Definition light_direction (object : Object F) : Vec3 F :=
  Vector_rotate (f0, f0, f1) (Matrix_decompose (matrix_world object)).1.2.

(** [CustomRenderEngine.view_update(self, context, depsgraph)] *)
Definition view_update (depsgraph : Depsgraph) : M World unit :=
  (let* w := getM in
   let* first_time :=
     if negb (truthy (scene_data (self w))) then
       set_scene_data (Some [0]) ;;;
       for_each (ids depsgraph) (λ datablock,
         match datablock with
         | IDObject o =>
             if decide (type o = MESH) then rebuild o else retM tt
         | IDOther _ => retM tt
         end) ;;;
       retM true
     else
       for_each (updates depsgraph) (λ update,
         match update_id update with
         | IDObject o =>
             if bool_decide (type o = MESH) && is_updated_geometry update
             then rebuild o else retM tt
         | IDOther _ => retM tt
         end) ;;;
       (if id_type_updated depsgraph "MATERIAL" then retM tt else retM tt) ;;;
       retM false
   in
   if first_time || id_type_updated depsgraph "OBJECT" then
     set_mesh_objects [] ;;;
     for_each (object_instances depsgraph) (λ instance,
       let object := instance_object instance in
       if decide (type object = MESH) then mesh_objects_append object
       else retM tt) ;;;
     set_lights [] ;;;
     for_each (object_instances depsgraph) (λ instance,
       let object := instance_object instance in
       match data object with
       | LightData t =>
           if decide (t = SUN) then lights_append (light_direction object)
           else retM tt
       | _ => retM tt
       end)
   else retM tt)%py.

End Callbacks.

(** ** Drawing *)

Inductive uniform_value : Type :=
  | UMatrix (m : Matrix4 F)
  | UFloat (x : F)
  | UBools (l : list bool).

(** One call into the [gpu] module.  Shader and batch are those of the
    [MeshDraw] with the given identity. *)
Inductive gpu_call : Type :=
  | depth_mask_set (b : bool)
  | depth_test_set (mode : string)
  | face_culling_set (mode : string)
  | shader_bind (draw : nat)
  | shader_uniform (draw : nat) (name : string) (v : uniform_value)
  | batch_draw (draw : nat).

(** The GPU command stream so far. *)
Definition GPU (A : Type) : Type := M (list gpu_call) A.

Definition gpu (c : gpu_call) : GPU unit := modifyM (λ log, log ++ [c]).

(** [self.shader.uniform_float(name, v)] and [uniform_bool]: a name the
    compiled program does not have raises [ValueError] and sets nothing. *)
Definition uniform (self : MeshDraw F) (name : string) (v : uniform_value)
  : GPU unit :=
  if decide (name ∈ uniform_names (shader self))
  then gpu (shader_uniform (md_id self) name v)
  else raiseM ValueError.

Record RegionView3D : Type := {
  view_matrix : Matrix4 F;
  window_matrix : Matrix4 F;
}.

Record CustomRenderEngineSettings : Type := {
  enable_outline : bool;
  outline_width : F;
  shading_sharpness : F;
}.

(** The [min] that [draw] defines locally: [b] if [a > b], else [a]. *)
Definition draw_min (a b : nat) : nat := if decide (b < a) then b else a.

(** Lines 229-231 of [draw]: the matrix [packed_lights] after the loop. *)
Definition pack_lights (lights : list (Vec3 F)) : result (Matrix4 F) :=
  let packed_lights := Matrix_Diagonal_zero in
  for_in (range (draw_min (length lights) 4))
    (λ i packed_lights,
       v ← getitem lights i;
       Matrix_set_row_xyz packed_lights i v)
    packed_lights.

(** [MeshDraw.draw(self, transform, region_data, lights, settings)] *)
Definition MeshDraw_draw (self : MeshDraw F) (transform : Matrix4 F)
    (region_data : RegionView3D) (lights : list (Vec3 F))
    (settings : CustomRenderEngineSettings) : GPU unit :=
  (gpu (shader_bind (md_id self)) ;;;
   try_exceptM
     (uniform self "matrix_world" (UMatrix transform) ;;;
      uniform self "view_matrix" (UMatrix (view_matrix region_data)) ;;;
      uniform self "projection_matrix" (UMatrix (window_matrix region_data)) ;;;
      let* packed_lights := liftM (pack_lights lights) in
      uniform self "directional_lights" (UMatrix (transposed packed_lights)) ;;;
      uniform self "render_outlines" (UBools [enable_outline settings]) ;;;
      uniform self "outline_width" (UFloat (outline_width settings)) ;;;
      uniform self "shading_sharpness" (UFloat (shading_sharpness settings)))
     ValueError
     (retM tt) ;;;
   gpu (batch_draw (md_id self)))%py.

(** The part of [context] that [view_draw] reads. *)
Record Context : Type := {
  region_data : RegionView3D;
  custom_render_engine : CustomRenderEngineSettings;
}.

(** [CustomRenderEngine.view_draw(self, context, depsgraph)] *)
Definition view_draw (self : CustomRenderEngine) (context : Context) : GPU unit :=
  (gpu (depth_mask_set true) ;;;
   gpu (depth_test_set "LESS_EQUAL") ;;;
   gpu (face_culling_set "BACK") ;;;
   let settings := custom_render_engine context in
   for_each (mesh_objects self) (λ object,
     let* draw := liftM (dict_getitem (draw_calls self) (name object)) in
     MeshDraw_draw draw (matrix_world object) (region_data context)
       (lights self) settings) ;;;
   gpu (depth_test_set "NONE") ;;;
   gpu (depth_mask_set false) ;;;
   gpu (face_culling_set "NONE"))%py.

End Engine.
Arguments ID F : clear implicits.
Arguments DepsgraphUpdate F : clear implicits.
Arguments DepsgraphObjectInstance F : clear implicits.
Arguments Depsgraph F : clear implicits.
Arguments CustomRenderEngine F : clear implicits.
Arguments World F : clear implicits.
Arguments uniform_value F : clear implicits.
Arguments gpu_call F : clear implicits.
Arguments GPU F : clear implicits.
Arguments RegionView3D F : clear implicits.
Arguments CustomRenderEngineSettings F : clear implicits.
Arguments Context F : clear implicits.

(** ** Closed forms used in the statements *)

Section Specifications.
Context {F : Type} `{Mathutils F}.

(** One position per loop, fetched through the loop's vertex index. *)
Definition gathered_positions (mesh : Mesh F) : result (list (Vec3 F)) :=
  mapM (getitem (co <$> vertices mesh)) (vertex_index <$> loops mesh).

(** The colour array: the active layer if there is one (it must have one
    entry per loop), zeros otherwise. *)
Definition loop_colors (mesh : Mesh F) : result (list (Vec4 F)) :=
  match vertex_colors_active mesh with
  | Some layer =>
      if decide (length (loops mesh) = length layer) then Ok (color <$> layer)
      else Raise OtherError
  | None => Ok (replicate (length (loops mesh)) zero4)
  end.

(** The same mesh, with a tangent computation that succeeds. *)
Definition with_tangents (mesh : Mesh F) : Mesh F :=
  {| vertices := vertices mesh; loops := loops mesh;
     loop_triangles := loop_triangles mesh;
     vertex_colors_active := vertex_colors_active mesh;
     calc_tangents := Ok tt |}.

(** A light direction as a matrix row: [w] stays zero. *)
Definition xyz0 (v : Vec3 F) : Vec4 F := set_xyz zero4 v.

Definition zero3 : Vec3 F := (f0, f0, f0).

Definition nonzero_rows (m : Matrix4 F) : nat :=
  length (filter (λ r, r ≠ zero4) (rows m)).

(** The uniforms of one draw, in binding order. *)
Definition uniform_bindings (transform : Matrix4 F) (region_data : RegionView3D F)
    (packed_lights : Matrix4 F) (settings : CustomRenderEngineSettings F)
  : list (string * uniform_value F) :=
  [ ("matrix_world", UMatrix transform);
    ("view_matrix", UMatrix (view_matrix region_data));
    ("projection_matrix", UMatrix (window_matrix region_data));
    ("directional_lights", UMatrix (transposed packed_lights));
    ("render_outlines", UBools [enable_outline settings]);
    ("outline_width", UFloat (outline_width settings));
    ("shading_sharpness", UFloat (shading_sharpness settings)) ].

(** The bindings up to the first name the program does not have. *)
Fixpoint bound_prefix (names : list string) (bs : list (string * uniform_value F))
  : list (string * uniform_value F) :=
  match bs with
  | [] => []
  | b :: bs' => if decide (b.1 ∈ names) then b :: bound_prefix names bs' else []
  end.

(** The GPU calls of one [MeshDraw.draw] that binds [bound]. *)
Definition draw_calls_of (draw : MeshDraw F) (bound : list (string * uniform_value F))
  : list (gpu_call F) :=
  shader_bind (md_id draw)
    :: ((λ b, shader_uniform (md_id draw) b.1 b.2) <$> bound)
    ++ [batch_draw (md_id draw)].

(** The GPU calls that [view_draw] makes for one instance that has a
    cache entry. *)
Definition instance_calls (self : CustomRenderEngine F) (context : Context F)
    (o : Object F) : list (gpu_call F) :=
  match draw_calls self !! name o, pack_lights (lights self) with
  | Some draw, Ok packed_lights =>
      draw_calls_of draw
        (bound_prefix (uniform_names (shader draw))
           (uniform_bindings (matrix_world o) (region_data context)
              packed_lights (custom_render_engine context)))
  | _, _ => []
  end.

Definition gpu_setup : list (gpu_call F) :=
  [depth_mask_set true; depth_test_set "LESS_EQUAL"; face_culling_set "BACK"].

Definition gpu_restore : list (gpu_call F) :=
  [depth_test_set "NONE"; depth_mask_set false; face_culling_set "NONE"].

(** The visible mesh objects and the sun directions of one scan of the
    instances, in discovery order. *)
Definition scan_mesh_objects (depsgraph : Depsgraph F) : list (Object F) :=
  filter (λ o, type o = MESH) (instance_object <$> object_instances depsgraph).

Definition is_sun (o : Object F) : bool :=
  match data o with
  | LightData SUN => true
  | _ => false
  end.

Definition scan_lights (depsgraph : Depsgraph F) : list (Vec3 F) :=
  light_direction <$>
    filter (λ o, is_sun o = true) (instance_object <$> object_instances depsgraph).

(** A change notification rebuilds the entry [key] when it carries a
    geometry update of a mesh object of that name. *)
Definition rebuilds (key : string) (update : DepsgraphUpdate F) : Prop :=
  match update_id update with
  | IDObject o => type o = MESH ∧ is_updated_geometry update = true ∧ name o = key
  | IDOther _ => False
  end.

End Specifications.

(** ** Concrete scenes *)

(** Scenes with integer coordinates: a scalar is the integer it denotes. *)
#[global] Instance Z_scalar : Scalar Z := {| f0 := 0%Z; f1 := 1%Z |}.

(** A host math library that is exact on objects that are only
    translated: the rotation is the identity quaternion, which leaves a
    vector as it is. *)
#[global] Instance Z_mathutils : Mathutils Z := {|
  Matrix_decompose m :=
    ((m.(row0).2, m.(row1).2, m.(row2).2), (1, 0, 0, 0), (1, 1, 1))%Z;
  Vector_rotate v q := v;
|}.

Module Scene.
Open Scope Z_scope.

Definition identity : Matrix4 Z :=
  {| row0 := (1, 0, 0, 0); row1 := (0, 1, 0, 0);
     row2 := (0, 0, 1, 0); row3 := (0, 0, 0, 1) |}.

(** One triangle: three vertices, three loops, no UVs (so no tangents)
    and no colour layer. *)
Definition triangle : Mesh Z :=
  {| vertices := [ {| co := (0, 0, 0) |}; {| co := (2, 0, 0) |};
                   {| co := (0, 2, 0) |} ];
     loops := [ {| vertex_index := 2%nat; normal := (0, 0, 1) |};
                {| vertex_index := 0%nat; normal := (0, 0, 1) |};
                {| vertex_index := 1%nat; normal := (0, 0, 1) |} ];
     loop_triangles := [ {| tri_loops := (0, 1, 2)%nat |} ];
     vertex_colors_active := None;
     calc_tangents := Raise RuntimeError |}.

(** A square of two triangles sharing an edge, with a colour layer. *)
Definition square : Mesh Z :=
  {| vertices := [ {| co := (0, 0, 0) |}; {| co := (1, 0, 0) |};
                   {| co := (1, 1, 0) |}; {| co := (0, 1, 0) |} ];
     loops := [ {| vertex_index := 0%nat; normal := (0, 0, 1) |};
                {| vertex_index := 1%nat; normal := (0, 0, 1) |};
                {| vertex_index := 2%nat; normal := (0, 0, 1) |};
                {| vertex_index := 3%nat; normal := (0, 0, 1) |} ];
     loop_triangles := [ {| tri_loops := (0, 1, 2)%nat |};
                         {| tri_loops := (0, 2, 3)%nat |} ];
     vertex_colors_active :=
       Some [ {| color := (1, 0, 0, 1) |}; {| color := (0, 1, 0, 1) |};
              {| color := (0, 0, 1, 1) |}; {| color := (1, 1, 1, 1) |} ];
     calc_tangents := Ok tt |}.

Definition Triangle : Object Z :=
  {| name := "Triangle"; data := MeshData triangle; matrix_world := identity |}.
Definition Square : Object Z :=
  {| name := "Square"; data := MeshData square; matrix_world := identity |}.
(** [Triangle] after the user renamed it. *)
Definition Renamed : Object Z :=
  {| name := "Triangle.001"; data := MeshData triangle;
     matrix_world := identity |}.
(** A second object that uses the square mesh. *)
Definition Floor : Object Z :=
  {| name := "Floor"; data := MeshData square; matrix_world := identity |}.
Definition Sun : Object Z :=
  {| name := "Sun"; data := LightData SUN; matrix_world := identity |}.
Definition Lamp : Object Z :=
  {| name := "Point"; data := LightData POINT; matrix_world := identity |}.
Definition Camera : Object Z :=
  {| name := "Camera"; data := OtherData; matrix_world := identity |}.

(** A program that exposes every uniform the renderer sets, and a
    variant whose compiler dropped the unused [view_matrix]. *)
Definition full_shader : GPUShader :=
  {| uniform_names :=
       [ "matrix_world"; "view_matrix"; "projection_matrix";
         "directional_lights"; "render_outlines"; "outline_width";
         "shading_sharpness" ]%string |}.
Definition variant_shader : GPUShader :=
  {| uniform_names :=
       [ "matrix_world"; "projection_matrix"; "directional_lights";
         "render_outlines"; "outline_width"; "shading_sharpness" ]%string |}.

Definition memory (n : nat) : Uninit Z :=
  {| junk_float := 7 + Z.of_nat n; junk_int := 9 + n |}.

Definition settings : CustomRenderEngineSettings Z :=
  {| enable_outline := true; outline_width := 1; shading_sharpness := 1 |}.

Definition context : Context Z :=
  {| region_data := {| view_matrix := identity; window_matrix := identity |};
     custom_render_engine := settings |}.

Definition instances (l : list (Object Z)) : list (DepsgraphObjectInstance Z) :=
  (λ o, {| instance_object := o |}) <$> l.

(** The first notification: the scene holds a square, a triangle, a
    floor, a sun, a point lamp and a camera. *)
Definition first_sync : Depsgraph Z :=
  {| ids := [ IDObject Square; IDOther "Square"; IDObject Triangle;
              IDObject Floor; IDObject Sun; IDObject Lamp; IDObject Camera ];
     updates := [];
     object_instances :=
       instances [Square; Triangle; Floor; Sun; Lamp; Camera];
     id_type_updated := λ _, true |}.

(** The triangle was moved: an object-level change without geometry. *)
Definition moved : Depsgraph Z :=
  {| ids := ids first_sync;
     updates := [ {| update_id := IDObject Triangle;
                     is_updated_geometry := false |} ];
     object_instances := object_instances first_sync;
     id_type_updated := λ t, bool_decide (t = "OBJECT"%string) |}.

(** The triangle was renamed: again an object-level change only. *)
Definition renamed : Depsgraph Z :=
  {| ids := [ IDObject Square; IDObject Renamed; IDObject Floor;
              IDObject Sun; IDObject Lamp; IDObject Camera ];
     updates := [ {| update_id := IDObject Renamed;
                     is_updated_geometry := false |} ];
     object_instances :=
       instances [Square; Renamed; Floor; Sun; Lamp; Camera];
     id_type_updated := λ t, bool_decide (t = "OBJECT"%string) |}.

(** Six sun directions. *)
Definition six_lights : list (Vec3 Z) :=
  [ (1, 0, 0); (0, 1, 0); (0, 0, 1); (1, 1, 0); (0, 1, 1); (1, 0, 1) ].

(** A [MeshDraw] of the triangle whose program is the variant. *)
Definition variant_draw : MeshDraw Z :=
  {| md_id := 0; transform := None; shader := variant_shader;
     batch := {| positions := [(0, 2, 0); (0, 0, 0); (2, 0, 0)];
                 normals := [(0, 0, 1); (0, 0, 1); (0, 0, 1)];
                 colors := [(0, 0, 0, 0); (0, 0, 0, 0); (0, 0, 0, 0)];
                 indices := [(0, 1, 2)%nat] |};
     object := Some Triangle |}.

Definition boot : World Z :=
  {| self := CustomRenderEngine_init; next_id := 0 |}.

Definition run (l : list (Depsgraph Z)) : World Z :=
  foldl (λ w d, (view_update (Ok full_shader) memory d w).2) boot l.

End Scene.

(** ** Registration with the host *)

(** A direct subclass of [bpy.types.Panel].  [COMPAT_ENGINES] is [None]
    when the class has no such attribute, and otherwise the set object
    the attribute refers to: classes may share one set. *)
Record Panel : Type := {
  panel_name : string;
  COMPAT_ENGINES : option nat;
}.

(** Calls into [bpy.utils] and the assignment to
    [bpy.types.Scene.custom_render_engine].  They are recorded in the
    order they are made, and the host is taken to accept them.  The host
    raises when a class is registered twice or unregistered without being
    registered: what is stated of [register] and [unregister] as wholes
    is stated of a host that accepts their calls. *)
Inductive host_call : Type :=
  | register_class (cls : string)
  | unregister_class (cls : string)
  | Scene_custom_render_engine (type : string).

(** What registration reads and writes: the subclasses of [Panel], the
    set objects by reference, and the calls made so far. *)
Record Host : Type := {
  Panel_subclasses : list Panel;
  set_objects : nat → gset string;
  host_calls : list host_call;
}.

Definition with_set (r : nat) (s : gset string) (h : Host) : Host :=
  {| Panel_subclasses := Panel_subclasses h;
     set_objects := <[r := s]> (set_objects h);
     host_calls := host_calls h |}.

Definition bpy_call (c : host_call) : M Host unit :=
  modifyM (λ h,
    {| Panel_subclasses := Panel_subclasses h;
       set_objects := set_objects h;
       host_calls := host_calls h ++ [c] |}).

(** [panel.COMPAT_ENGINES]: an [AttributeError] without the attribute. *)
Definition getattr_COMPAT_ENGINES (panel : Panel) : M Host nat :=
  match COMPAT_ENGINES panel with
  | Some r => retM r
  | None => raiseM OtherError
  end.

(** [x in s], [s.add(x)] and [s.remove(x)] on the set object [r];
    [remove] raises [KeyError] when [x] is not in the set. *)
Definition set_contains (r : nat) (x : string) : M Host bool :=
  (let* h := getM in retM (bool_decide (x ∈ set_objects h r)))%py.

Definition set_add (r : nat) (x : string) : M Host unit :=
  modifyM (λ h, with_set r ({[x]} ∪ set_objects h r) h).

Definition set_remove (r : nat) (x : string) : M Host unit :=
  (let* h := getM in
   if bool_decide (x ∈ set_objects h r)
   then modifyM (with_set r (set_objects h r ∖ {[x]}))
   else raiseM KeyError)%py.

(** [get_panels()] *)
Definition get_panels (h : Host) : list Panel :=
  let exclude_panels : gset string :=
    {[ "VIEWLAYER_PT_filter"; "VIEWLAYER_PT_layer_passes" ]} in
  let panels := [] in
  foldl (λ panels panel,
      match COMPAT_ENGINES panel with
      | Some r =>
          if bool_decide ("BLENDER_RENDER" ∈ set_objects h r) then
            if bool_decide (panel_name panel ∉ exclude_panels)
            then panels ++ [panel]
            else panels
          else panels
      | None => panels
      end)
    panels (Panel_subclasses h).

Definition classes : list string :=
  [ "CustomRenderEngine"; "CustomRenderEngineSettings";
    "CustomRenderEnginePanel" ].

(** [register()] *)
Definition register : M Host unit :=
  (for_each classes (λ cls, bpy_call (register_class cls)) ;;;
   let* h := getM in
   for_each (get_panels h) (λ panel,
     let* s := getattr_COMPAT_ENGINES panel in
     set_add s "CUSTOM") ;;;
   bpy_call (Scene_custom_render_engine "CustomRenderEngineSettings"))%py.

(** [unregister()] *)
Definition unregister : M Host unit :=
  (for_each classes (λ cls, bpy_call (unregister_class cls)) ;;;
   let* h := getM in
   for_each (get_panels h) (λ panel,
     let* s := getattr_COMPAT_ENGINES panel in
     let* present := set_contains s "CUSTOM" in
     if present then
       let* s := getattr_COMPAT_ENGINES panel in
       set_remove s "CUSTOM"
     else retM tt))%py.

(** The second loop of [unregister()], lines 303-305, by itself: it
    comes after the [unregister_class] calls and makes no host call. *)
Definition unregister_panels : M Host unit :=
  (let* h := getM in
   for_each (get_panels h) (λ panel,
     let* s := getattr_COMPAT_ENGINES panel in
     let* present := set_contains s "CUSTOM" in
     if present then
       let* s := getattr_COMPAT_ENGINES panel in
       set_remove s "CUSTOM"
     else retM tt))%py.

(** The test of the loop of [get_panels]. *)
Definition selected (h : Host) (panel : Panel) : bool :=
  match COMPAT_ENGINES panel with
  | Some r =>
      bool_decide ("BLENDER_RENDER" ∈ set_objects h r)
      && bool_decide (panel_name panel ∉
           ({[ "VIEWLAYER_PT_filter"; "VIEWLAYER_PT_layer_passes" ]} : gset string))
  | None => false
  end.

(** The set objects that the panels of [get_panels] refer to. *)
Definition selected_sets (h : Host) : list nat :=
  omap COMPAT_ENGINES (get_panels h).

(** ** Further closed forms *)

Section MoreSpecifications.
Context {F : Type} `{Mathutils F}.

(** The identities of the [MeshDraw]s whose batches a command stream
    draws, in order. *)
Definition drawn (calls : list (gpu_call F)) : list nat :=
  omap (λ c, match c with batch_draw i => Some i | _ => None end) calls.

(** The names that [draw] binds, in order. *)
Definition renderer_uniforms : list string :=
  [ "matrix_world"; "view_matrix"; "projection_matrix"; "directional_lights";
    "render_outlines"; "outline_width"; "shading_sharpness" ].

Definition components (r : Vec4 F) : list F :=
  let '(x, y, z, w) := r in [x; y; z; w].

(** The first four of [l], padded with zeros to length four. *)
Definition pad4 (l : list F) : list F :=
  take 4 l ++ replicate (4 - length l) f0.

(** Every cached [MeshDraw] was allocated before now, and no two keys
    hold the same one. *)
Definition cache_allocated (w : World F) : Prop :=
  ∀ key draw, draw_calls (self w) !! key = Some draw → md_id draw < next_id w.

Definition cache_unshared (w : World F) : Prop :=
  ∀ key1 key2 draw1 draw2,
    draw_calls (self w) !! key1 = Some draw1 →
    draw_calls (self w) !! key2 = Some draw2 →
    md_id draw1 = md_id draw2 → key1 = key2.

(** The cache entry under [key] belongs to a mesh object of that name. *)
Definition cached_for (key : string) (w : World F) : Prop :=
  ∃ draw o, draw_calls (self w) !! key = Some draw
          ∧ object draw = Some o ∧ name o = key ∧ type o = MESH.

End MoreSpecifications.

Module Examples.
Import Scene.
Open Scope Z_scope.

(** The triangle with a loop that points past the last vertex. *)
Definition broken_triangle : Mesh Z :=
  {| vertices := vertices triangle;
     loops := [ {| vertex_index := 2%nat; normal := (0, 0, 1) |};
                {| vertex_index := 3%nat; normal := (0, 0, 1) |};
                {| vertex_index := 1%nat; normal := (0, 0, 1) |} ];
     loop_triangles := loop_triangles triangle;
     vertex_colors_active := None;
     calc_tangents := Ok tt |}.

Definition Broken : Object Z :=
  {| name := "Broken"; data := MeshData broken_triangle;
     matrix_world := identity |}.



(** Loose vertices: no face, so no loop and no triangle. *)
Definition loose_vertices : Mesh Z :=
  {| vertices := vertices triangle; loops := [];
     loop_triangles := [];
     vertex_colors_active := Some [];
     calc_tangents := Raise RuntimeError |}.

(** A [MeshDraw] of the triangle whose program has every uniform. *)
Definition full_draw : MeshDraw Z :=
  {| md_id := 0; transform := None; shader := full_shader;
     batch := batch variant_draw; object := Some Triangle |}.

(** The square after an edit of its geometry. *)
Definition edited : Depsgraph Z :=
  {| ids := ids first_sync;
     updates := [ {| update_id := IDObject Square;
                     is_updated_geometry := true |} ];
     object_instances := object_instances first_sync;
     id_type_updated := λ _, false |}.

(** The square was edited and a mesh that cannot be built was added. *)
Definition breaking : Depsgraph Z :=
  {| ids := ids first_sync ++ [IDObject Broken];
     updates := [ {| update_id := IDObject Square;
                     is_updated_geometry := true |};
                  {| update_id := IDObject Broken;
                     is_updated_geometry := true |} ];
     object_instances := instances [Square; Triangle; Floor; Broken; Sun];
     id_type_updated := λ _, true |}.

(** A first notification whose second mesh cannot be built. *)
Definition failing_sync : Depsgraph Z :=
  {| ids := [ IDObject Square; IDObject Broken; IDObject Triangle ];
     updates := [];
     object_instances := instances [Square; Broken; Triangle; Sun];
     id_type_updated := λ _, true |}.

(** Two render panels that share one set of engines, a view-layer panel
    that [get_panels] leaves out, a panel of another engine, and the
    renderer's own panel, which has no [COMPAT_ENGINES]. *)
Definition panels : list Panel :=
  [ {| panel_name := "RENDER_PT_dimensions"; COMPAT_ENGINES := Some 0%nat |};
    {| panel_name := "RENDER_PT_output"; COMPAT_ENGINES := Some 0%nat |};
    {| panel_name := "VIEWLAYER_PT_filter"; COMPAT_ENGINES := Some 1%nat |};
    {| panel_name := "CYCLES_PT_sampling"; COMPAT_ENGINES := Some 2%nat |};
    {| panel_name := "DATA_PT_lens"; COMPAT_ENGINES := Some 3%nat |};
    {| panel_name := "RENDER_PT_CustomRenderEngine"; COMPAT_ENGINES := None |} ].

Definition engines (r : nat) : gset string :=
  match r with
  | 0%nat => {[ "BLENDER_RENDER"; "BLENDER_EEVEE" ]}
  | 1%nat => {[ "BLENDER_RENDER" ]}
  | 2%nat => {[ "CYCLES" ]}
  | 3%nat => {[ "BLENDER_RENDER"; "BLENDER_WORKBENCH" ]}
  | _ => ∅
  end.

Definition host : Host :=
  {| Panel_subclasses := panels; set_objects := engines; host_calls := [] |}.

End Examples.

(** * Properties *)

(** ** Outcomes and loops *)

Section ResultLemmas.
Context {A B : Type}.

Lemma mapM_Ok_Forall2 (f : A → result B) (l : list A) (k : list B) :
  mapM f l = Ok k → Forall2 (λ x y, f x = Ok y) l k.
Proof.
  revert k. induction l as [|x l IH]; intros k; simpl.
  - intros [= <-]. constructor.
  - destruct (f x) as [y|e] eqn:Hy; simpl; [|discriminate].
    destruct (mapM f l) as [k'|e]; simpl; [|discriminate].
    intros [= <-]. constructor; auto.
Qed.

Lemma mapM_Ok_length (f : A → result B) (l : list A) (k : list B) :
  mapM f l = Ok k → length k = length l.
Proof.
  intros Hk. symmetry. eapply Forall2_length, mapM_Ok_Forall2, Hk.
Qed.

Lemma mapM_total (f : A → result B) (l : list A) :
  Forall (λ x, ∃ y, f x = Ok y) l → ∃ k, mapM f l = Ok k.
Proof.
  induction 1 as [|x l [y Hy] _ [k Hk]]; simpl.
  - by eexists.
  - rewrite Hy, Hk. by eexists.
Qed.

Lemma getitem_Ok (l : list A) (i : nat) (x : A) :
  getitem l i = Ok x ↔ l !! i = Some x.
Proof. unfold getitem. destruct (l !! i); naive_solver. Qed.

Lemma setitem_Ok (l : list A) (i : nat) (x : A) :
  i < length l → setitem l i x = Ok (<[i:=x]> l).
Proof. intros Hi. unfold setitem. by rewrite decide_True. Qed.

End ResultLemmas.

Section FilterLemmas.
Context {A : Type} (P : A → Prop) `{!∀ x, Decision (P x)}.

Lemma filter_all (l : list A) : Forall P l → filter P l = l.
Proof.
  induction 1 as [|x l Hx _ IH]; [done|].
  by rewrite filter_cons_True, IH.
Qed.

Lemma filter_none (l : list A) : Forall (λ x, ¬ P x) l → filter P l = [].
Proof.
  induction 1 as [|x l Hx _ IH]; [done|].
  by rewrite filter_cons_False.
Qed.

End FilterLemmas.

(** ** The builder *)

Section Builder.
Context {F : Type} `{Scalar F}.
Implicit Types (mesh : Mesh F) (mem : Uninit F) (d : MeshDraw F).

(** The gather loop of [__init__] fills the uninitialised array from
    left to right; nothing of what the memory held survives it. *)
Lemma gather_loop (lv : list nat) (mv : list (Vec3 F)) :
  ∀ (rest seen : list nat) (pre junk : list (Vec3 F)),
    lv = seen ++ rest →
    length pre = length seen →
    length junk = length rest →
    for_in (seq (length pre) (length rest))
      (λ i vs, j ← getitem lv i; v ← getitem mv j; setitem vs i v)
      (pre ++ junk)
    = (post ← mapM (getitem mv) rest; Ok (pre ++ post)).
Proof.
  induction rest as [|j rest IH]; intros seen pre junk Hlv Hpre Hjunk.
  - destruct junk; [done | discriminate].
  - destruct junk as [|x junk]; [discriminate|].
    injection Hjunk as Hjunk. simpl.
    assert (getitem lv (length pre) = Ok j) as ->.
    { apply getitem_Ok. rewrite Hlv, Hpre. by apply list_lookup_middle. }
    simpl. destruct (getitem mv j) as [v|e]; simpl; [|done].
    rewrite setitem_Ok by (rewrite length_app; simpl; lia).
    simpl. rewrite insert_app_r_alt, Nat.sub_diag by lia. simpl.
    specialize (IH (seen ++ [j]) (pre ++ [v]) junk).
    rewrite length_app, Nat.add_1_r in IH. simpl in IH.
    replace (pre ++ v :: junk) with ((pre ++ [v]) ++ junk)
      by (by rewrite <- app_assoc).
    rewrite IH; [| by rewrite Hlv, <- app_assoc
                 | rewrite length_app; simpl; lia | done].
    destruct (mapM (getitem mv) rest) as [post|e]; simpl; [|done].
    by rewrite <- app_assoc.
Qed.

(** [__init__] in closed form: no trace of the uninitialised memory. *)
Lemma MeshDraw_init_closed GPUShader_new mem self_id mesh transform :
  MeshDraw_init GPUShader_new mem self_id mesh transform =
    (_ ← try_except (calc_tangents mesh) RuntimeError (Ok tt);
     ps ← gathered_positions mesh;
     cs ← loop_colors mesh;
     sh ← GPUShader_new;
     Ok {| md_id := self_id; transform := transform; shader := sh;
           batch := {| positions := ps;
                       normals := normal <$> loops mesh;
                       colors := cs;
                       indices := tri_loops <$> loop_triangles mesh |};
           object := None |}).
Proof.
  unfold MeshDraw_init, gathered_positions, loop_colors, foreach_get,
    np_empty, np_zeros4, range.
  destruct (calc_tangents mesh) as [[]|e]; simpl;
    [| destruct (decide (e = RuntimeError)); simpl; [|done] ].
  all: rewrite !length_replicate, !decide_True by done; simpl.
  all: pose proof (gather_loop (vertex_index <$> loops mesh)
         (co <$> vertices mesh) (vertex_index <$> loops mesh) [] []
         (replicate (length (loops mesh)) (junk3 mem))) as Hloop.
  all: rewrite length_fmap in Hloop; simpl in Hloop.
  all: rewrite Hloop by (by rewrite ?length_replicate, ?length_fmap).
  all: destruct (mapM _ _) as [ps|e']; simpl; [|done].
  all: destruct (vertex_colors_active mesh) as [layer|]; simpl; [|done].
  all: destruct (decide (length (loops mesh) = length layer)); simpl; done.
Qed.

Lemma MeshDraw_init_Ok_inv GPUShader_new mem self_id mesh transform d :
  MeshDraw_init GPUShader_new mem self_id mesh transform = Ok d →
  ∃ ps cs sh,
    gathered_positions mesh = Ok ps ∧ loop_colors mesh = Ok cs ∧
    GPUShader_new = Ok sh ∧
    d = {| md_id := self_id; transform := transform; shader := sh;
           batch := {| positions := ps;
                       normals := normal <$> loops mesh;
                       colors := cs;
                       indices := tri_loops <$> loop_triangles mesh |};
           object := None |}.
Proof.
  rewrite MeshDraw_init_closed.
  destruct (try_except _ _ _); simpl; [|discriminate].
  destruct (gathered_positions mesh) as [ps|]; simpl; [|discriminate].
  destruct (loop_colors mesh) as [cs|]; simpl; [|discriminate].
  destruct GPUShader_new as [sh|]; simpl; [|discriminate].
  intros [= <-]. by exists ps, cs, sh.
Qed.

Lemma gathered_positions_length mesh ps :
  gathered_positions mesh = Ok ps → length ps = length (loops mesh).
Proof.
  intros Hps. apply mapM_Ok_length in Hps. by rewrite length_fmap in Hps.
Qed.

Lemma gathered_positions_total mesh :
  loops_on_vertices mesh → ∃ ps, gathered_positions mesh = Ok ps.
Proof.
  intros Hv. apply mapM_total, Forall_fmap.
  eapply Forall_impl; [exact Hv|]. intros l Hl; simpl.
  destruct (lookup_lt_is_Some_2 (co <$> vertices mesh) (vertex_index l))
    as [p Hp]; [by rewrite length_fmap|].
  exists p. by apply getitem_Ok.
Qed.

Lemma loop_colors_length mesh cs :
  loop_colors mesh = Ok cs → length cs = length (loops mesh).
Proof.
  unfold loop_colors. destruct (vertex_colors_active mesh) as [layer|].
  - case_decide; [|discriminate]. intros [= <-]. by rewrite length_fmap.
  - intros [= <-]. by rewrite length_replicate.
Qed.

Lemma loop_colors_total mesh :
  color_layer_fits mesh → ∃ cs, loop_colors mesh = Ok cs.
Proof.
  unfold color_layer_fits, loop_colors.
  destruct (vertex_colors_active mesh) as [layer|]; [|by eexists].
  intros Hfit. rewrite decide_True by done. by eexists.
Qed.

(** On a mesh that respects the host's invariants, with a shader that
    compiles, the builder returns. *)
Lemma MeshDraw_init_total sh mem self_id mesh transform :
  loops_on_vertices mesh → color_layer_fits mesh →
  calc_tangents mesh = Ok tt ∨ calc_tangents mesh = Raise RuntimeError →
  ∃ d, MeshDraw_init (Ok sh) mem self_id mesh transform = Ok d.
Proof.
  intros [ps Hps]%gathered_positions_total [cs Hcs]%loop_colors_total Ht.
  rewrite MeshDraw_init_closed, Hps, Hcs.
  destruct Ht as [-> | ->]; simpl; by eexists.
Qed.

(** C3: a buffer that the builder returns has as many positions, normals
    and colours as the mesh has loops. *)
Theorem buffer_lengths GPUShader_new mem self_id mesh transform d :
  MeshDraw_init GPUShader_new mem self_id mesh transform = Ok d →
  length (positions (batch d)) = length (loops mesh) ∧
  length (normals (batch d)) = length (loops mesh) ∧
  length (colors (batch d)) = length (loops mesh).
Proof.
  intros (ps & cs & sh & Hps & Hcs & _ & ->)%MeshDraw_init_Ok_inv. simpl.
  split_and!.
  - by apply gathered_positions_length.
  - by rewrite length_fmap.
  - by apply loop_colors_length.
Qed.


(** C6: without an active colour layer every colour of the buffer is
    (0, 0, 0, 0); with one, the colours are those of the layer. *)
Theorem colors_default_or_copied GPUShader_new mem self_id mesh transform d :
  MeshDraw_init GPUShader_new mem self_id mesh transform = Ok d →
  match vertex_colors_active mesh with
  | None => Forall (λ c, c = (f0, f0, f0, f0)) (colors (batch d))
  | Some layer => colors (batch d) = color <$> layer
  end.
Proof.
  intros (ps & cs & sh & _ & Hcs & _ & ->)%MeshDraw_init_Ok_inv. simpl.
  unfold loop_colors in Hcs. destruct (vertex_colors_active mesh) as [layer|].
  - case_decide; [|discriminate]. by injection Hcs as <-.
  - injection Hcs as <-. by apply Forall_replicate.
Qed.

(** C8: a tangent computation that raises [RuntimeError] changes nothing:
    the builder does what it does when tangents are available, and on a
    well-formed mesh it returns a buffer with the loops' normals. *)
Theorem tangent_failure_absorbed sh mem self_id mesh transform :
  calc_tangents mesh = Raise RuntimeError →
  loops_on_vertices mesh →
  color_layer_fits mesh →
  MeshDraw_init (Ok sh) mem self_id mesh transform
    = MeshDraw_init (Ok sh) mem self_id (with_tangents mesh) transform
  ∧ ∃ d, MeshDraw_init (Ok sh) mem self_id mesh transform = Ok d
         ∧ normals (batch d) = normal <$> loops mesh.
Proof.
  intros Ht Hv Hc. split.
  - rewrite !MeshDraw_init_closed, Ht. done.
  - destruct (MeshDraw_init_total sh mem self_id mesh transform) as [d Hd];
      [done | done | by right |].
    exists d. split; [done|].
    by apply MeshDraw_init_Ok_inv in Hd as (? & ? & ? & _ & _ & _ & ->).
Qed.

(** C9: two builds of the same mesh give the same buffer, whatever the
    identities of the two [MeshDraw] objects and whatever their arrays'
    memory held before. *)
Theorem build_deterministic GPUShader_new mem1 mem2 id1 id2 tr1 tr2 mesh :
  batch <$> MeshDraw_init GPUShader_new mem1 id1 mesh tr1
  = batch <$> MeshDraw_init GPUShader_new mem2 id2 mesh tr2.
Proof.
  rewrite !MeshDraw_init_closed.
  destruct (try_except _ _ _); simpl; [|done].
  destruct (gathered_positions mesh); simpl; [|done].
  destruct (loop_colors mesh); simpl; [|done].
  by destruct GPUShader_new.
Qed.

End Builder.

(** ** Packing the lights *)

Section Lights.
Context {F : Type} `{Scalar F}.
Implicit Types (v : Vec3 F) (lights : list (Vec3 F)).

Lemma draw_min_min (a b : nat) : draw_min a b = Nat.min a b.
Proof. unfold draw_min. case_decide; lia. Qed.

Lemma xyz0_nonzero v : v ≠ zero3 → xyz0 v ≠ zero4.
Proof.
  destruct v as [[x y] z]. unfold xyz0, zero3, zero4. simpl.
  intros Hv [= -> -> ->]. by apply Hv.
Qed.

(** The matrix after the loop, by the number of lights. *)
Lemma pack_lights_rows lights :
  ∃ m, pack_lights lights = Ok m ∧
       rows m = take 4 (xyz0 <$> lights) ++ replicate (4 - length lights) zero4.
Proof.
  unfold pack_lights. rewrite draw_min_min.
  destruct lights as [|a [|b [|c [|d rest]]]]; simpl;
    rewrite ?Nat.min_0_r; simpl;
    eexists; (split; [reflexivity|]); reflexivity.
Qed.

Lemma nonzero_rows_count (l : list (Vec4 F)) (k : nat) :
  Forall (λ r, r ≠ zero4) l →
  length (filter (λ r, r ≠ zero4) (l ++ replicate k zero4)) = length l.
Proof.
  intros Hl. rewrite filter_app, length_app, (filter_all _ l Hl).
  rewrite filter_none; [simpl; lia|].
  apply Forall_replicate. intros Hne. by apply Hne.
Qed.

(** C5: [n] sun lights give a matrix whose first [min n 4] rows are the
    first directions in discovery order (with a zero fourth component)
    and whose other rows are zero; directions being non-zero vectors,
    exactly [min n 4] rows are non-zero, and lights after the fourth
    leave no trace and raise nothing. *)
Theorem packed_lights_matrix lights :
  Forall (λ v, v ≠ zero3) lights →
  ∃ m, pack_lights lights = Ok m
     ∧ rows m = (xyz0 <$> take 4 lights)
                ++ replicate (4 - Nat.min (length lights) 4) zero4
     ∧ nonzero_rows m = Nat.min (length lights) 4.
Proof.
  intros Hnz. destruct (pack_lights_rows lights) as (m & Hm & Hrows).
  exists m. split; [done|].
  assert (rows m = (xyz0 <$> take 4 lights)
                   ++ replicate (4 - Nat.min (length lights) 4) zero4) as Hrows'.
  { rewrite Hrows, fmap_take. f_equal. f_equal. lia. }
  split; [done|]. unfold nonzero_rows. rewrite Hrows', nonzero_rows_count.
  - rewrite length_fmap, length_take. lia.
  - apply Forall_fmap, Forall_take. eapply Forall_impl; [exact Hnz|].
    intros v Hv. by apply xyz0_nonzero.
Qed.

End Lights.

(** ** Drawing one object *)

Section Drawing.
Context {F : Type} `{Scalar F}.
Implicit Types (draw : MeshDraw F) (log : list (gpu_call F)).

(** One [draw]: bind, the uniforms up to the first one the program does
    not have, then the draw call; [ValueError] never leaves it. *)
Lemma MeshDraw_draw_calls draw transform rd lights settings m log :
  pack_lights lights = Ok m →
  MeshDraw_draw draw transform rd lights settings log
  = (Ok tt,
     log ++ draw_calls_of draw
       (bound_prefix (uniform_names (shader draw))
          (uniform_bindings transform rd m settings))).
Proof.
  intros Hm.
  unfold MeshDraw_draw, try_exceptM, bindM, uniform, gpu, liftM, modifyM,
    raiseM, retM, draw_calls_of.
  rewrite Hm. simpl.
  repeat (destruct (decide (_ ∈ uniform_names (shader draw))); simpl);
    rewrite <- ?app_assoc; reflexivity.
Qed.

(** C2, as the code has it: when setting a uniform fails, that uniform
    and every uniform after it in the binding sequence are skipped; the
    ones before it stay set, nothing is raised, and the triangles are
    drawn. *)
Theorem uniform_failure_skips_rest draw transform rd lights settings log :
  ∃ m, pack_lights lights = Ok m
     ∧ MeshDraw_draw draw transform rd lights settings log
       = (Ok tt,
          log ++ [shader_bind (md_id draw)]
              ++ ((λ b, shader_uniform (md_id draw) b.1 b.2) <$>
                    bound_prefix (uniform_names (shader draw))
                      (uniform_bindings transform rd m settings))
              ++ [batch_draw (md_id draw)]).
Proof.
  destruct (pack_lights_rows lights) as (m & Hm & _). exists m.
  split; [done|]. by rewrite (MeshDraw_draw_calls _ _ _ _ _ m).
Qed.

End Drawing.

(** ** Drawing a frame *)

Section Frame.
Context {F : Type} `{Scalar F}.
Implicit Types (self : CustomRenderEngine F) (context : Context F)
  (o : Object F) (log : list (gpu_call F)).

(** The body of the loop of [view_draw]. *)
Local Abbreviation draw_instance self context :=
  (λ object,
     bindM (liftM (dict_getitem (draw_calls self) (name object)))
       (λ draw,
          MeshDraw_draw draw (matrix_world object) (region_data context)
            (lights self) (custom_render_engine context))).

Lemma draw_instance_cached self context o log :
  is_Some (draw_calls self !! name o) →
  draw_instance self context o log
  = (Ok tt, log ++ instance_calls self context o).
Proof.
  intros [draw Hdraw].
  destruct (pack_lights_rows (lights self)) as (m & Hm & _).
  unfold instance_calls, bindM, liftM, dict_getitem. rewrite Hdraw, Hm.
  by apply MeshDraw_draw_calls.
Qed.

Lemma draw_instance_missing self context o log :
  draw_calls self !! name o = None →
  draw_instance self context o log = (Raise KeyError, log).
Proof. intros Hnone. unfold bindM, liftM, dict_getitem. by rewrite Hnone. Qed.

(** The loop draws the instances in order as long as they have entries. *)
Lemma for_each_cached self context (pre rest : list (Object F)) log :
  Forall (λ p, is_Some (draw_calls self !! name p)) pre →
  for_each (pre ++ rest) (draw_instance self context) log
  = for_each rest (draw_instance self context)
      (log ++ concat (instance_calls self context <$> pre)).
Proof.
  intros Hpre. revert log.
  induction Hpre as [|p pre Hp _ IH]; intros log; simpl.
  - by rewrite app_nil_r.
  - unfold bindM at 1. rewrite draw_instance_cached by done.
    rewrite IH. by rewrite <- app_assoc.
Qed.

(** A frame in which every visible instance has an entry: set-up, the
    instances in order, restore. *)
Lemma view_draw_all_cached self context log :
  Forall (λ p, is_Some (draw_calls self !! name p)) (mesh_objects self) →
  view_draw self context log
  = (Ok tt,
     log ++ gpu_setup
         ++ concat (instance_calls self context <$> mesh_objects self)
         ++ gpu_restore).
Proof.
  intros Hall. unfold view_draw.
  unfold bindM at 1 2 3. unfold gpu at 1 2 3. unfold modifyM at 1 2 3.
  unfold bindM at 1.
  rewrite <- (app_nil_r (mesh_objects self)) at 1.
  rewrite for_each_cached by done. simpl.
  unfold bindM, gpu, modifyM, retM, gpu_setup, gpu_restore. simpl.
  by rewrite <- !app_assoc.
Qed.

(** C1, as the code has it: an instance without a cache entry gets no
    GPU call, but the lookup raises [KeyError] out of [view_draw]: the
    instances before it have been drawn, those after it are not, and the
    GPU state is not restored. *)
Theorem view_draw_missing_entry self context pre o post log :
  mesh_objects self = pre ++ o :: post →
  Forall (λ p, is_Some (draw_calls self !! name p)) pre →
  draw_calls self !! name o = None →
  view_draw self context log
  = (Raise KeyError,
     log ++ gpu_setup ++ concat (instance_calls self context <$> pre)).
Proof.
  intros Hobjs Hpre Hnone. unfold view_draw.
  unfold bindM at 1 2 3. unfold gpu at 1 2 3. unfold modifyM at 1 2 3.
  unfold bindM at 1.
  rewrite Hobjs, for_each_cached by done. simpl.
  unfold bindM at 1. rewrite draw_instance_missing by done.
  unfold gpu_setup. by rewrite <- !app_assoc.
Qed.

End Frame.

(** ** State that a computation leaves alone *)

Section Preserves.
Context {S : Type} (P : S → Prop).
Local Abbreviation preserves := (preserves P).

Lemma preserves_ret {A} (a : A) : preserves (retM a).
Proof. by intros s. Qed.

Lemma preserves_get : preserves getM.
Proof. by intros s. Qed.

Lemma preserves_lift {A} (r : result A) : preserves (liftM r).
Proof. by intros s. Qed.

Lemma preserves_modify (f : S → S) : (∀ s, P s → P (f s)) → preserves (modifyM f).
Proof. intros Hf s Hs. by apply Hf. Qed.

Lemma preserves_bind {A B} (m : M S A) (k : A → M S B) :
  preserves m → (∀ a, preserves (k a)) → preserves (bindM m k).
Proof.
  intros Hm Hk s Hs. unfold bindM. specialize (Hm s Hs).
  destruct (m s) as [[a|e] s']; simpl in *; [by apply Hk | done].
Qed.

Lemma preserves_for_each {A} (l : list A) (body : A → M S unit) :
  Forall (λ x, preserves (body x)) l → preserves (for_each l body).
Proof.
  induction 1 as [|x l Hx _ IH]; simpl.
  - apply preserves_ret.
  - apply preserves_bind; [done | by intros _].
Qed.

End Preserves.

Create HintDb preserves.
#[global] Hint Resolve preserves_ret preserves_get preserves_lift
  preserves_bind : preserves.

(** ** Scene-change notifications *)

Section Notifications.
Context {F : Type} `{Mathutils F}.
Variable GPUShader_new : result GPUShader.
Variable np_memory : nat → Uninit F.
Implicit Types (w : World F) (depsgraph : Depsgraph F) (key : string).

(** *** The cache *)

(** The entry under [key] is [entry]. *)
Local Abbreviation entry_is key entry :=
  (λ w : World F, draw_calls (self w) !! key = entry).

Lemma rebuild_other_key key entry (o : Object F) :
  name o ≠ key →
  preserves (entry_is key entry) (rebuild GPUShader_new np_memory o).
Proof.
  intros Hne. unfold rebuild. destruct (data o); auto with preserves.
  apply preserves_bind.
  - unfold MeshDraw_new. apply preserves_bind; [apply preserves_get|].
    intros w. apply preserves_bind; [|auto with preserves].
    by apply preserves_modify.
  - intros draw. apply preserves_modify. intros w Hw. simpl.
    by rewrite lookup_insert_ne.
Qed.

(** The block of [view_update] that rescans the instances. *)
Local Abbreviation rescan depsgraph :=
  (bindM (set_mesh_objects [])
     (λ _, bindM
        (for_each (object_instances depsgraph) (λ instance,
           let object := instance_object instance in
           if decide (type object = MESH) then mesh_objects_append object
           else retM tt))
        (λ _, bindM (set_lights [])
           (λ _, for_each (object_instances depsgraph) (λ instance,
              let object := instance_object instance in
              match data object with
              | LightData t =>
                  if decide (t = SUN)
                  then lights_append (light_direction object)
                  else retM tt
              | _ => retM tt
              end))))).

Lemma lists_keep_cache key entry depsgraph :
  preserves (entry_is key entry) (rescan depsgraph).
Proof.
  assert (∀ v, preserves (entry_is key entry) (set_mesh_objects v)) as Hm
    by (intros v; by apply preserves_modify).
  assert (∀ v, preserves (entry_is key entry) (set_lights v)) as Hl
    by (intros v; by apply preserves_modify).
  apply preserves_bind; [done | intros _].
  apply preserves_bind; [| intros _; apply preserves_bind; [done | intros _]].
  - apply preserves_for_each, Forall_forall. intros instance _. simpl.
    case_decide; [|auto with preserves].
    unfold mesh_objects_append. auto with preserves.
  - apply preserves_for_each, Forall_forall. intros instance _. simpl.
    destruct (data _) as [| t |]; auto with preserves.
    case_decide; [|auto with preserves].
    unfold lights_append. auto with preserves.
Qed.

(** C7: after the first sync, a notification none of whose updates is a
    geometry update of a mesh object named [key] leaves the entry under
    [key] as it was: the same [MeshDraw], with the same identity. *)
Theorem transform_update_keeps_entry depsgraph w key :
  truthy (scene_data (self w)) = true →
  Forall (λ update, ¬ rebuilds key update) (updates depsgraph) →
  draw_calls (self (view_update GPUShader_new np_memory depsgraph w).2) !! key
  = draw_calls (self w) !! key.
Proof.
  intros Hsynced Hupdates. unfold view_update.
  unfold bindM at 1. unfold getM at 1. rewrite Hsynced. simpl negb. cbv iota.
  set (entry := draw_calls (self w) !! key).
  refine ((_ : preserves (entry_is key entry) _) w eq_refl).
  apply preserves_bind.
  - apply preserves_bind;
      [| intros _; apply preserves_bind; [|auto with preserves];
         destruct (id_type_updated depsgraph "MATERIAL"); auto with preserves].
    apply preserves_for_each. eapply Forall_impl; [exact Hupdates|].
    intros update Hupdate. unfold rebuilds in Hupdate. simpl.
    destruct (update_id update) as [o|]; [|auto with preserves].
    destruct (bool_decide (type o = MESH) && is_updated_geometry update)
      eqn:Hgeometry; [|auto with preserves].
    apply andb_prop in Hgeometry as [Hmesh%bool_decide_eq_true Hgeometry].
    apply rebuild_other_key. naive_solver.
  - intros first_time.
    destruct (first_time || id_type_updated depsgraph "OBJECT");
      [apply lists_keep_cache | auto with preserves].
Qed.

(** *** The lists *)

Lemma collect_mesh_objects (l : list (DepsgraphObjectInstance F)) w :
  for_each l (λ instance,
    let object := instance_object instance in
    if decide (type object = MESH) then mesh_objects_append object
    else retM tt) w
  = (Ok tt,
     with_mesh_objects
       (mesh_objects (self w)
          ++ filter (λ o, type o = MESH) (instance_object <$> l)) w).
Proof.
  revert w. induction l as [|instance l IH]; intros w; simpl.
  - rewrite app_nil_r. by destruct w as [[]].
  - unfold bindM at 1. rewrite filter_cons.
    destruct (decide (type (instance_object instance) = MESH)); simpl.
    + rewrite IH. simpl. by rewrite <- app_assoc.
    + by rewrite IH.
Qed.

Lemma collect_lights (l : list (DepsgraphObjectInstance F)) w :
  for_each l (λ instance,
    let object := instance_object instance in
    match data object with
    | LightData t =>
        if decide (t = SUN) then lights_append (light_direction object)
        else retM tt
    | _ => retM tt
    end) w
  = (Ok tt,
     with_lights
       (lights (self w)
          ++ (light_direction <$>
                filter (λ o, is_sun o = true) (instance_object <$> l))) w).
Proof.
  revert w. induction l as [|instance l IH]; intros w; simpl.
  - rewrite app_nil_r. by destruct w as [[]].
  - unfold bindM at 1.
    destruct (data (instance_object instance)) as [| [] |] eqn:Hdata; simpl;
      rewrite IH; simpl.
    all: first
      [ rewrite filter_cons_True by (unfold is_sun; by rewrite Hdata)
      | rewrite filter_cons_False by (unfold is_sun; by rewrite Hdata) ].
    all: by rewrite <- ?app_assoc.
Qed.

(** The rescan forgets the old lists and cannot raise. *)
Lemma rescan_lists depsgraph w :
  ∃ w', rescan depsgraph w = (Ok tt, w')
      ∧ mesh_objects (self w') = scan_mesh_objects depsgraph
      ∧ lights (self w') = scan_lights depsgraph.
Proof.
  eexists. split.
  - unfold bindM at 1. unfold set_mesh_objects, modifyM at 1.
    unfold bindM at 1. rewrite collect_mesh_objects.
    unfold bindM at 1. unfold set_lights, modifyM at 1.
    by rewrite collect_lights.
  - done.
Qed.

(** Rebuilding a cache entry touches neither list. *)
Local Abbreviation lists_are objs dirs :=
  (λ w : World F, mesh_objects (self w) = objs ∧ lights (self w) = dirs).

Lemma rebuild_keeps_lists objs dirs (o : Object F) :
  preserves (lists_are objs dirs) (rebuild GPUShader_new np_memory o).
Proof.
  unfold rebuild. destruct (data o); auto with preserves.
  apply preserves_bind.
  - unfold MeshDraw_new. apply preserves_bind; [apply preserves_get|].
    intros w. apply preserves_bind; [|auto with preserves].
    by apply preserves_modify.
  - intros draw. by apply preserves_modify.
Qed.

(** C10: a notification that returns has either rescanned, and then the
    list of visible mesh objects and the list of light directions are
    those of this scan alone, whatever they held before, or it has left
    both lists as they were. *)
Theorem lists_reflect_latest_scan depsgraph w w' :
  view_update GPUShader_new np_memory depsgraph w = (Ok tt, w') →
  if negb (truthy (scene_data (self w))) || id_type_updated depsgraph "OBJECT"
  then mesh_objects (self w') = scan_mesh_objects depsgraph
       ∧ lights (self w') = scan_lights depsgraph
  else mesh_objects (self w') = mesh_objects (self w)
       ∧ lights (self w') = lights (self w).
Proof.
  unfold view_update. unfold bindM at 1. unfold getM at 1.
  destruct (truthy (scene_data (self w))) eqn:Hsynced; simpl negb; cbv iota.
  - (* a later notification *)
    unfold bindM at 1.
    match goal with
    | |- context [bindM (for_each ?l ?body) ?k w] =>
        assert (preserves (lists_are (mesh_objects (self w)) (lights (self w)))
                  (for_each l body)) as Hkeep;
        [| specialize (Hkeep w (conj eq_refl eq_refl));
           unfold bindM at 1;
           destruct (for_each l body w) as [[[]|e] w1] eqn:Hrun;
           [|discriminate] ]
    end.
    { apply preserves_for_each, Forall_forall. intros update _. simpl.
      destruct (update_id update) as [o|]; [|auto with preserves].
      destruct (_ && _); [apply rebuild_keeps_lists | auto with preserves]. }
    simpl in Hkeep. unfold bindM at 1.
    destruct (id_type_updated depsgraph "MATERIAL"); unfold retM at 1 2.
    all: destruct (id_type_updated depsgraph "OBJECT"); cbn [orb]; cbv iota.
    1, 3: intros Hdone;
      destruct (rescan_lists depsgraph w1) as (w2 & Hw2 & Hobjs & Hdirs);
      by pose proof (eq_trans (eq_sym Hw2) Hdone) as [= <-].
    all: unfold retM; cbv beta; by intros [= <-].
  - (* the first notification *)
    unfold bindM at 1 2. unfold set_scene_data, modifyM at 1.
    unfold bindM at 1.
    match goal with
    | |- context [for_each ?l ?body ?w0] =>
        destruct (for_each l body w0) as [[[]|e] w1]; [|discriminate]
    end.
    unfold retM at 1. cbn [orb]. cbv iota.
    intros Hdone.
    destruct (rescan_lists depsgraph w1) as (w2 & Hw2 & Hobjs & Hdirs).
    by pose proof (eq_trans (eq_sym Hw2) Hdone) as [= <-].
Qed.

End Notifications.

(** ** The properties on concrete scenes *)

Section Concrete.
Import Scene.
Open Scope Z_scope.

Lemma buffer_lengths_square :
  ∃ d, MeshDraw_init (Ok full_shader) (memory 0) 0 square None = Ok d
     ∧ (length (positions (batch d)) = length (loops square)
        ∧ length (normals (batch d)) = length (loops square)
        ∧ length (colors (batch d)) = length (loops square)).
Proof.
  eexists. split; [reflexivity|].
  apply (buffer_lengths (Ok full_shader) (memory 0) 0 square None).
  reflexivity.
Defined.



Lemma colors_default_triangle :
  ∃ d, MeshDraw_init (Ok full_shader) (memory 0) 0 triangle None = Ok d
     ∧ Forall (λ c, c = (0, 0, 0, 0)) (colors (batch d)).
Proof.
  eexists. split; [reflexivity|].
  exact (colors_default_or_copied (Ok full_shader) (memory 0) 0 triangle None
           _ eq_refl).
Defined.

Lemma tangent_failure_absorbed_triangle :
  calc_tangents triangle = Raise RuntimeError
  ∧ loops_on_vertices triangle
  ∧ color_layer_fits triangle
  ∧ (MeshDraw_init (Ok full_shader) (memory 0) 0 triangle None
       = MeshDraw_init (Ok full_shader) (memory 0) 0 (with_tangents triangle) None
     ∧ ∃ d, MeshDraw_init (Ok full_shader) (memory 0) 0 triangle None = Ok d
            ∧ normals (batch d) = normal <$> loops triangle).
Proof.
  assert (loops_on_vertices triangle) as Hv
    by (repeat constructor; simpl; lia).
  split_and!; [reflexivity | exact Hv | exact I | |];
    apply (tangent_failure_absorbed full_shader (memory 0) 0 triangle None);
    first [reflexivity | exact Hv | exact I].
Defined.

Lemma packed_lights_matrix_six :
  Forall (λ v, v ≠ zero3) six_lights
  ∧ ∃ m, pack_lights six_lights = Ok m
       ∧ rows m = (xyz0 <$> take 4 six_lights)
                  ++ replicate (4 - Nat.min (length six_lights) 4) zero4
       ∧ nonzero_rows m = Nat.min (length six_lights) 4.
Proof.
  assert (Forall (λ v : Vec3 Z, v ≠ zero3) six_lights) as Hnz
    by (repeat constructor; discriminate).
  split; [exact Hnz|]. apply (packed_lights_matrix six_lights), Hnz.
Defined.

(** With 0, 1, 4 and 6 lights the matrix has 0, 1, 4 and 4 non-zero rows. *)
Example packed_lights_0_1_4_6 :
  nonzero_rows <$> pack_lights (take 0 six_lights) = Ok 0%nat
  ∧ nonzero_rows <$> pack_lights (take 1 six_lights) = Ok 1%nat
  ∧ nonzero_rows <$> pack_lights (take 4 six_lights) = Ok 4%nat
  ∧ nonzero_rows <$> pack_lights six_lights = Ok 4%nat
  ∧ pack_lights six_lights = pack_lights (take 4 six_lights).
Proof. by vm_compute. Qed.

Lemma transform_update_keeps_triangle :
  truthy (scene_data (self (run [first_sync]))) = true
  ∧ Forall (λ update, ¬ rebuilds "Triangle" update) (updates moved)
  ∧ draw_calls
      (self (view_update (Ok full_shader) memory moved (run [first_sync])).2)
      !! "Triangle"
    = draw_calls (self (run [first_sync])) !! "Triangle".
Proof.
  assert (Forall (λ update, ¬ rebuilds "Triangle" update) (updates moved))
    as Hupdates by (repeat constructor; intros (_ & [=] & _)).
  split_and!; [reflexivity | exact Hupdates |].
  apply (transform_update_keeps_entry (Ok full_shader) memory moved
           (run [first_sync]) "Triangle");
    [reflexivity | exact Hupdates].
Defined.

Lemma lists_after_first_sync :
  view_update (Ok full_shader) memory first_sync boot
    = (Ok tt, run [first_sync])
  ∧ mesh_objects (self (run [first_sync])) = scan_mesh_objects first_sync
  ∧ lights (self (run [first_sync])) = scan_lights first_sync.
Proof.
  assert (view_update (Ok full_shader) memory first_sync boot
          = (Ok tt, run [first_sync])) as Hrun by (vm_compute; reflexivity).
  split; [exact Hrun|].
  apply (lists_reflect_latest_scan (Ok full_shader) memory first_sync boot
           (run [first_sync]) Hrun).
Defined.

(** Two notifications in a row do not double the lists. *)
Example lists_after_two_syncs :
  mesh_objects (self (run [first_sync; moved])) = [Square; Triangle; Floor]
  ∧ lights (self (run [first_sync; moved])) = [(0, 0, 1)].
Proof. by vm_compute. Qed.

Lemma view_draw_missing_entry_renamed :
  mesh_objects (self (run [first_sync; renamed])) = [Square] ++ Renamed :: [Floor]
  ∧ Forall (λ p, is_Some (draw_calls (self (run [first_sync; renamed]))
                            !! name p)) [Square]
  ∧ draw_calls (self (run [first_sync; renamed])) !! name Renamed = None
  ∧ view_draw (self (run [first_sync; renamed])) context []
    = (Raise KeyError,
       [] ++ gpu_setup
          ++ concat (instance_calls (self (run [first_sync; renamed])) context
                       <$> [Square])).
Proof.
  assert (Forall (λ p, is_Some (draw_calls (self (run [first_sync; renamed]))
                                  !! name p)) [Square]) as Hpre
    by (repeat constructor; eexists; vm_compute; reflexivity).
  split_and!; [vm_compute; reflexivity | exact Hpre | vm_compute; reflexivity |].
  apply (view_draw_missing_entry (self (run [first_sync; renamed])) context
           [Square] Renamed [Floor] []);
    [vm_compute; reflexivity | exact Hpre | vm_compute; reflexivity].
Defined.

(** C1 fails: after a rename the renamed triangle is visible and has no
    cache entry; the frame raises [KeyError], and the floor, which comes
    after the triangle and has an entry, is not drawn. *)
Lemma renamed_object_aborts_frame :
  mesh_objects (self (run [first_sync; renamed])) = [Square; Renamed; Floor]
  ∧ draw_calls (self (run [first_sync; renamed])) !! name Renamed = None
  ∧ md_id <$> (draw_calls (self (run [first_sync; renamed])) !! name Floor)
    = Some 2%nat
  ∧ (view_draw (self (run [first_sync; renamed])) context []).1
    = Raise KeyError
  ∧ Forall (λ c, c ≠ batch_draw 2)
      (view_draw (self (run [first_sync; renamed])) context []).2.
Proof.
  split_and!; try (vm_compute; reflexivity).
  vm_compute. repeat constructor; discriminate.
Qed.

(** C2 fails: the variant has [projection_matrix] and the five uniforms
    after it, but not [view_matrix]; the draw sets [matrix_world] only. *)
Lemma variant_shader_loses_later_uniforms :
  ("view_matrix" ∉ uniform_names (shader variant_draw))
  ∧ "projection_matrix" ∈ uniform_names (shader variant_draw)
  ∧ MeshDraw_draw variant_draw identity (region_data context) [] settings []
    = (Ok tt,
       [ shader_bind 0;
         shader_uniform 0 "matrix_world" (UMatrix identity);
         batch_draw 0 ]).
Proof.
  split_and!; [| | reflexivity].
  - apply (bool_decide_unpack _). by vm_compute.
  - apply (bool_decide_unpack _). by vm_compute.
Qed.

End Concrete.

(** * Further properties *)

(** ** What the builder puts into the buffer, and when it raises *)

Section BuilderContents.
Context {F : Type} `{Scalar F}.
Implicit Types (mesh : Mesh F) (mem : Uninit F) (d : MeshDraw F).

Lemma mapM_getitem_Raise {A} (l : list A) (idx : list nat) (e : exn) :
  mapM (getitem l) idx = Raise e → e = IndexError.
Proof.
  induction idx as [|j idx IH]; simpl; [discriminate|].
  destruct (getitem l j) as [x|e'] eqn:Hj; simpl.
  - destruct (mapM (getitem l) idx); simpl; [discriminate|].
    intros [= <-]. by apply IH.
  - intros [= <-]. unfold getitem in Hj. destruct (l !! j); congruence.
Qed.

Lemma gathered_positions_Ok_inv mesh ps :
  gathered_positions mesh = Ok ps → loops_on_vertices mesh.
Proof.
  intros Hps%mapM_Ok_Forall2. unfold loops_on_vertices.
  remember (vertex_index <$> loops mesh) as idx eqn:Hidx.
  revert Hidx. generalize (loops mesh).
  induction Hps as [|j p idx ps Hj _ IH]; intros [|l ls] [=]; constructor.
  - subst j. apply getitem_Ok, lookup_lt_Some in Hj.
    by rewrite length_fmap in Hj.
  - by apply IH.
Qed.

(** X1: entry [i] of the positions is the coordinate of the vertex that
    loop [i] sits on. *)
Theorem positions_gathered GPUShader_new mem self_id mesh transform d i p :
  MeshDraw_init GPUShader_new mem self_id mesh transform = Ok d →
  positions (batch d) !! i = Some p
  ↔ ∃ l v, loops mesh !! i = Some l
         ∧ vertices mesh !! vertex_index l = Some v ∧ co v = p.
Proof.
  intros (ps & cs & sh & Hps%mapM_Ok_Forall2 & _ & _ & ->)%MeshDraw_init_Ok_inv.
  simpl. split.
  - intros Hp. destruct (Forall2_lookup_r _ _ _ _ _ Hps Hp) as (j & Hj & Hget).
    apply list_lookup_fmap_Some in Hj as (l & -> & Hl).
    apply getitem_Ok in Hget.
    apply list_lookup_fmap_Some in Hget as (v & -> & Hv).
    by exists l, v.
  - intros (l & v & Hl & Hv & <-).
    destruct (Forall2_lookup_l _ _ _ i (vertex_index l) Hps)
      as (p & Hp & Hget); [by rewrite list_lookup_fmap, Hl|].
    apply getitem_Ok in Hget. rewrite list_lookup_fmap, Hv in Hget.
    by injection Hget as <-.
Qed.

(** X2: the normals are the loops' normals and the index triples are
    the loop triangles, both in the host's order. *)
Theorem normals_and_indices_copied GPUShader_new mem self_id mesh transform d :
  MeshDraw_init GPUShader_new mem self_id mesh transform = Ok d →
  normals (batch d) = normal <$> loops mesh
  ∧ indices (batch d) = tri_loops <$> loop_triangles mesh.
Proof.
  by intros (ps & cs & sh & _ & _ & _ & ->)%MeshDraw_init_Ok_inv.
Qed.

(** X4: a loop whose vertex index is past the last vertex makes the
    builder raise [IndexError], whatever the colours and the shader. *)
Theorem vertex_index_out_of_range GPUShader_new mem self_id mesh transform :
  calc_tangents mesh = Ok tt ∨ calc_tangents mesh = Raise RuntimeError →
  ¬ loops_on_vertices mesh →
  MeshDraw_init GPUShader_new mem self_id mesh transform = Raise IndexError.
Proof.
  intros Ht Hv. rewrite MeshDraw_init_closed.
  assert (try_except (calc_tangents mesh) RuntimeError (Ok tt) = Ok tt) as ->
    by (by destruct Ht as [-> | ->]).
  simpl. destruct (gathered_positions mesh) as [ps|e] eqn:Hps; simpl.
  - destruct Hv. by eapply gathered_positions_Ok_inv.
  - by apply mapM_getitem_Raise in Hps as ->.
Qed.


(** X6: a mesh without loops builds to empty vertex arrays, whatever
    vertices it has. *)
Theorem empty_mesh_builds sh mem self_id mesh transform :
  loops mesh = [] →
  calc_tangents mesh = Ok tt ∨ calc_tangents mesh = Raise RuntimeError →
  color_layer_fits mesh →
  ∃ d, MeshDraw_init (Ok sh) mem self_id mesh transform = Ok d
     ∧ positions (batch d) = [] ∧ normals (batch d) = []
     ∧ colors (batch d) = [].
Proof.
  intros Hloops Ht Hc.
  destruct (MeshDraw_init_total sh mem self_id mesh transform) as [d Hd];
    [by unfold loops_on_vertices; rewrite Hloops | done | done |].
  exists d. split; [done|].
  apply MeshDraw_init_Ok_inv in Hd as (ps & cs & ? & Hps & Hcs & _ & ->).
  apply gathered_positions_length in Hps. apply loop_colors_length in Hcs.
  rewrite Hloops in *. simpl.
  by destruct ps, cs.
Qed.

End BuilderContents.

(** ** The uniforms of a draw *)

Section Uniforms.
Context {F : Type} `{Scalar F}.
Implicit Types (draw : MeshDraw F) (log : list (gpu_call F)).

Lemma bound_prefix_all (names : list string) (bs : list (string * uniform_value F)) :
  Forall (λ b, b.1 ∈ names) bs → bound_prefix names bs = bs.
Proof.
  induction 1 as [|b bs Hb _ IH]; simpl; [done|].
  by rewrite decide_True, IH.
Qed.

(** X7: a program that has the seven names the renderer binds gets all
    seven set, in source order, between the bind and the draw call. *)
Theorem all_uniforms_bound draw transform rd lights settings log :
  renderer_uniforms ⊆ uniform_names (shader draw) →
  ∃ m, pack_lights lights = Ok m
     ∧ MeshDraw_draw draw transform rd lights settings log
       = (Ok tt,
          log ++ [shader_bind (md_id draw)]
              ++ ((λ b, shader_uniform (md_id draw) b.1 b.2) <$>
                    uniform_bindings transform rd m settings)
              ++ [batch_draw (md_id draw)]).
Proof.
  intros Hnames. destruct (pack_lights_rows lights) as (m & Hm & _).
  exists m. split; [done|].
  rewrite (MeshDraw_draw_calls _ _ _ _ _ m) by done.
  rewrite bound_prefix_all; [done|].
  unfold uniform_bindings. repeat constructor; simpl; apply Hnames;
    unfold renderer_uniforms; set_solver.
Qed.

(** X8: layout of the matrix sent as [directional_lights], the transpose
    of [packed_lights]: its first three rows hold the x, the y and the z
    components of the first four lights, padded with zeros, and its last
    row is zero. *)
Theorem directional_lights_layout (lights : list (Vec3 F)) (m : Matrix4 F) :
  pack_lights lights = Ok m →
  components (row0 (transposed m)) = pad4 ((λ v, v.1.1) <$> lights)
  ∧ components (row1 (transposed m)) = pad4 ((λ v, v.1.2) <$> lights)
  ∧ components (row2 (transposed m)) = pad4 ((λ v, v.2) <$> lights)
  ∧ row3 (transposed m) = zero4.
Proof.
  unfold pack_lights. rewrite draw_min_min.
  destruct lights as [|[[] ?] [|[[] ?] [|[[] ?] [|[[] ?] rest]]]]; simpl;
    rewrite ?Nat.min_0_r; simpl; by intros [= <-].
Qed.

End Uniforms.

(** ** A frame whose instances are all cached *)

Section FullFrame.
Context {F : Type} `{Scalar F}.
Implicit Types (self : CustomRenderEngine F) (context : Context F)
  (o : Object F) (log : list (gpu_call F)).

Lemma drawn_app (calls1 calls2 : list (gpu_call F)) :
  drawn (calls1 ++ calls2) = drawn calls1 ++ drawn calls2.
Proof. apply omap_app. Qed.

Lemma drawn_draw_calls_of (draw : MeshDraw F) bound :
  drawn (draw_calls_of draw bound) = [md_id draw].
Proof.
  unfold draw_calls_of, drawn. simpl. rewrite omap_app. simpl.
  induction bound as [|b bound IH]; simpl; done.
Qed.

Lemma drawn_instance_calls self context o draw :
  draw_calls self !! name o = Some draw →
  drawn (instance_calls self context o) = [md_id draw].
Proof.
  intros Hdraw. unfold instance_calls. rewrite Hdraw.
  destruct (pack_lights_rows (lights self)) as (m & -> & _).
  apply drawn_draw_calls_of.
Qed.

Lemma drawn_instances self context (objs : list (Object F)) :
  Forall (λ p, is_Some (draw_calls self !! name p)) objs →
  drawn (concat (instance_calls self context <$> objs))
  = omap (λ o, md_id <$> draw_calls self !! name o) objs.
Proof.
  induction 1 as [|o objs [draw Hdraw] _ IH]; [done|].
  rewrite fmap_cons, concat_cons, drawn_app, IH.
  rewrite (drawn_instance_calls _ _ _ draw) by done.
  simpl. by rewrite Hdraw.
Qed.

Lemma length_cached_ids self (objs : list (Object F)) :
  Forall (λ p, is_Some (draw_calls self !! name p)) objs →
  length (omap (λ o, md_id <$> draw_calls self !! name o) objs) = length objs.
Proof.
  induction 1 as [|o objs [draw Hdraw] _ IH]; simpl; [done|].
  rewrite Hdraw. simpl. f_equal. exact IH.
Qed.

(** X9: when every visible instance has a cache entry, the frame
    returns, its calls are bracketed by the set-up and the restore of the
    GPU state, and in between exactly one batch is drawn per visible
    instance, that of its cache entry, in list order. *)
Theorem frame_draws_each_instance_once self context log :
  Forall (λ p, is_Some (draw_calls self !! name p)) (mesh_objects self) →
  ∃ calls,
    view_draw self context log
    = (Ok tt, log ++ gpu_setup ++ calls ++ gpu_restore)
    ∧ drawn calls
      = omap (λ o, md_id <$> draw_calls self !! name o) (mesh_objects self)
    ∧ length (drawn calls) = length (mesh_objects self).
Proof.
  intros Hall. eexists. split; [by apply view_draw_all_cached|].
  rewrite drawn_instances by done. split; [done|].
  by apply length_cached_ids.
Qed.

End FullFrame.

(** ** More on loops with state *)

Section ForEach.
Context {S A : Type}.

Lemma for_each_cons_Ok (x : A) (l : list A) (body : A → M S unit) s s' :
  for_each (x :: l) body s = (Ok tt, s') →
  ∃ s1, body x s = (Ok tt, s1) ∧ for_each l body s1 = (Ok tt, s').
Proof.
  simpl. unfold bindM. destruct (body x s) as [[[]|e] s1]; [|discriminate].
  intros Hrest. by exists s1.
Qed.

(** What a step of a loop that returns has established stays, when
    every step keeps it. *)
Lemma for_each_establishes (P Q : S → Prop) (l : list A) (body : A → M S unit)
    (x0 : A) s s' :
  (∀ x, x ∈ l → preserves Q (body x)) →
  (∀ x, x ∈ l → preserves P (body x)) →
  x0 ∈ l →
  (∀ s1 s2, Q s1 → body x0 s1 = (Ok tt, s2) → P s2) →
  Q s →
  for_each l body s = (Ok tt, s') →
  P s'.
Proof.
  intros HQ HP Hx0 Hest. revert s.
  induction l as [|x l IH]; intros s Hs Hrun; [by apply elem_of_nil in Hx0|].
  apply for_each_cons_Ok in Hrun as (s1 & Hstep & Hrest).
  assert (Q s1) as Hs1.
  { pose proof (HQ x (list_elem_of_here _ _) s Hs) as Hkeep.
    by rewrite Hstep in Hkeep. }
  apply elem_of_cons in Hx0 as [<- | Hx0].
  - assert (preserves P (for_each l body)) as Hkeep.
    { apply preserves_for_each, Forall_forall. intros y Hy.
      apply HP. by apply list_elem_of_further. }
    specialize (Hkeep s1 (Hest s s1 Hs Hstep)). by rewrite Hrest in Hkeep.
  - apply (IH (λ y Hy, HQ y (list_elem_of_further _ _ _ Hy))
              (λ y Hy, HP y (list_elem_of_further _ _ _ Hy)) Hx0 s1 Hs1 Hrest).
Qed.

End ForEach.

(** ** More on scene-change notifications *)

Section Cache.
Context {F : Type} `{Mathutils F}.
Variable GPUShader_new : result GPUShader.
Variable np_memory : nat → Uninit F.
Implicit Types (w : World F) (depsgraph : Depsgraph F) (key : string)
  (o : Object F).

Local Abbreviation rebuild_entry := (rebuild GPUShader_new np_memory).
Local Abbreviation notify := (view_update GPUShader_new np_memory).

(** The loop bodies of the two branches of [view_update]. *)
Local Abbreviation sync_body :=
  (λ datablock : ID F,
     match datablock with
     | IDObject o =>
         if decide (type o = MESH) then rebuild_entry o else retM tt
     | IDOther _ => retM tt
     end).

Local Abbreviation update_body :=
  (λ update : DepsgraphUpdate F,
     match update_id update with
     | IDObject o =>
         if bool_decide (type o = MESH) && is_updated_geometry update
         then rebuild_entry o else retM tt
     | IDOther _ => retM tt
     end).

(** The state after a rescan. *)
Local Abbreviation rescanned depsgraph w :=
  (with_lights (scan_lights depsgraph)
     (with_mesh_objects (scan_mesh_objects depsgraph) w)).

(** One rebuild: the allocation counter advances; the entry is written
    only when the builder returns. *)
Lemma rebuild_run o w :
  rebuild_entry o w
  = match data o with
    | MeshData mesh =>
        match MeshDraw_init GPUShader_new (np_memory (next_id w)) (next_id w)
                mesh None with
        | Ok draw =>
            (Ok tt,
             with_draw_call (name o) (set_object draw o)
               (with_next_id (S (next_id w)) w))
        | Raise e => (Raise e, with_next_id (S (next_id w)) w)
        end
    | _ => (Ok tt, w)
    end.
Proof.
  unfold rebuild. destruct (data o) as [mesh| |]; try done.
Qed.

(** The rescan cannot raise, and writes the two lists only. *)
Lemma rescan_run depsgraph w :
  bindM (set_mesh_objects [])
    (λ _, bindM
       (for_each (object_instances depsgraph) (λ instance,
          let object := instance_object instance in
          if decide (type object = MESH) then mesh_objects_append object
          else retM tt))
       (λ _, bindM (set_lights [])
          (λ _, for_each (object_instances depsgraph) (λ instance,
             let object := instance_object instance in
             match data object with
             | LightData t =>
                 if decide (t = SUN)
                 then lights_append (light_direction object)
                 else retM tt
             | _ => retM tt
             end)))) w
  = (Ok tt, rescanned depsgraph w).
Proof.
  unfold bindM at 1. unfold set_mesh_objects, modifyM at 1.
  unfold bindM at 1. rewrite collect_mesh_objects.
  unfold bindM at 1. unfold set_lights, modifyM at 1.
  by rewrite collect_lights.
Qed.

Lemma view_update_first depsgraph w :
  truthy (scene_data (self w)) = false →
  notify depsgraph w
  = match for_each (ids depsgraph) sync_body
            (with_scene_data (Some [0]) w) with
    | (Ok _, w1) => (Ok tt, rescanned depsgraph w1)
    | (Raise e, w1) => (Raise e, w1)
    end.
Proof.
  intros Hfirst. unfold view_update.
  unfold bindM at 1. unfold getM at 1. rewrite Hfirst. simpl negb. cbv iota.
  unfold bindM at 1 2. unfold set_scene_data, modifyM at 1.
  unfold bindM at 1.
  destruct (for_each _ _ _) as [[[]|e] w1]; [|done].
  unfold retM at 1. cbn [orb]. cbv iota.
  exact (rescan_run depsgraph w1).
Qed.

Lemma view_update_later depsgraph w :
  truthy (scene_data (self w)) = true →
  notify depsgraph w
  = match for_each (updates depsgraph) update_body w with
    | (Ok _, w1) =>
        (Ok tt,
         if id_type_updated depsgraph "OBJECT" then rescanned depsgraph w1
         else w1)
    | (Raise e, w1) => (Raise e, w1)
    end.
Proof.
  intros Hsynced. unfold view_update.
  unfold bindM at 1. unfold getM at 1. rewrite Hsynced. simpl negb. cbv iota.
  unfold bindM at 1 2.
  destruct (for_each _ _ _) as [[[]|e] w1]; [|done].
  unfold bindM at 1.
  destruct (id_type_updated depsgraph "MATERIAL"); unfold retM at 1 2.
  all: destruct (id_type_updated depsgraph "OBJECT"); cbn [orb]; cbv iota.
  all: first [exact (rescan_run depsgraph w1) | done].
Qed.

(** [view_update] keeps what its writes keep. *)
Lemma view_update_preserves (P : World F → Prop) depsgraph :
  (∀ v w, P w → P (with_scene_data v w)) →
  (∀ o, preserves P (rebuild_entry o)) →
  (∀ v w, P w → P (with_mesh_objects v w)) →
  (∀ v w, P w → P (with_lights v w)) →
  preserves P (notify depsgraph).
Proof.
  intros Hscene Hrebuild Hobjs Hdirs w Hw.
  destruct (truthy (scene_data (self w))) eqn:Hsynced.
  - rewrite view_update_later by done.
    assert (preserves P (for_each (updates depsgraph) update_body)) as Hloop.
    { apply preserves_for_each, Forall_forall. intros update _.
      destruct (update_id update); [|auto with preserves].
      destruct (_ && _); auto with preserves. }
    specialize (Hloop w Hw).
    destruct (for_each _ _ _) as [[[]|e] w1]; simpl in *; [|done].
    destruct (id_type_updated depsgraph "OBJECT"); auto.
  - rewrite view_update_first by done.
    assert (preserves P (for_each (ids depsgraph) sync_body)) as Hloop.
    { apply preserves_for_each, Forall_forall. intros [o|] _;
        [|auto with preserves].
      case_decide; auto with preserves. }
    specialize (Hloop _ (Hscene (Some [0]) w Hw)).
    destruct (for_each _ _ _) as [[[]|e] w1]; simpl in *; auto.
Qed.

(** *** The engine stays synced *)




(** *** The cache only grows *)

Lemma rebuild_keeps_keys key o :
  preserves (λ w, is_Some (draw_calls (self w) !! key)) (rebuild_entry o).
Proof.
  intros w Hw. rewrite rebuild_run.
  destruct (data o); [|done..].
  destruct (MeshDraw_init _ _ _ _ _); [|done]. simpl.
  destruct (decide (name o = key)) as [->|Hne].
  - by rewrite lookup_insert_eq.
  - by rewrite lookup_insert_ne.
Qed.

(** X11: a notification never removes a cache entry: a key that is
    cached stays cached, whether the notification returns or raises. *)
Theorem cache_never_evicts depsgraph w key :
  is_Some (draw_calls (self w) !! key) →
  is_Some (draw_calls
             (self (view_update GPUShader_new np_memory depsgraph w).2)
           !! key).
Proof.
  apply (view_update_preserves
           (λ w, is_Some (draw_calls (self w) !! key))); try done.
  intros o. apply rebuild_keeps_keys.
Qed.

(** *** Every key has a [MeshDraw] of its own *)

Lemma rebuild_keeps_identities o :
  preserves (λ w, cache_allocated w ∧ cache_unshared w) (rebuild_entry o).
Proof.
  intros w [Halloc Hunshared]. rewrite rebuild_run.
  destruct (data o) as [mesh| |]; [|done..].
  destruct (MeshDraw_init _ _ _ _ _) as [draw|e] eqn:Hdraw; simpl.
  - apply MeshDraw_init_Ok_inv in Hdraw as (? & ? & ? & _ & _ & _ & ->).
    split.
    + intros key draw'. unfold cache_allocated in *. simpl.
      destruct (decide (name o = key)) as [->|Hne].
      * rewrite lookup_insert_eq. intros [= <-]. simpl. lia.
      * rewrite lookup_insert_ne by done. intros Hold%Halloc. lia.
    + intros key1 key2 draw1 draw2. unfold cache_allocated in *. simpl.
      destruct (decide (name o = key1)) as [<-|Hne1];
        destruct (decide (name o = key2)) as [<-|Hne2]; [done|..].
      * rewrite lookup_insert_eq, lookup_insert_ne by done.
        intros [= <-] Hold%Halloc. simpl. lia.
      * rewrite lookup_insert_eq, lookup_insert_ne by done.
        intros Hold%Halloc [= <-]. simpl. lia.
      * rewrite !lookup_insert_ne by done. apply Hunshared.
  - split; [|done]. intros key draw' Hold%Halloc. simpl. lia.
Qed.

(** X12: the cache keeps its identities in order: every cached
    [MeshDraw] was allocated by an earlier [MeshDraw(...)], and no two
    keys hold the same [MeshDraw] object.  A notification keeps this,
    whether it returns or raises. *)
Theorem cache_entries_unshared depsgraph w :
  cache_allocated w → cache_unshared w →
  cache_allocated (view_update GPUShader_new np_memory depsgraph w).2
  ∧ cache_unshared (view_update GPUShader_new np_memory depsgraph w).2.
Proof.
  intros Halloc Hunshared.
  apply (view_update_preserves (λ w, cache_allocated w ∧ cache_unshared w));
    try done.
  intros o. apply rebuild_keeps_identities.
Qed.

(** *** A notification that raises *)

(** X13: a notification that raises leaves the list of visible mesh
    objects and the list of lights as they were: the build that failed
    comes before the rescan, which is then not reached. *)
Theorem failed_notification_keeps_lists depsgraph w e w' :
  view_update GPUShader_new np_memory depsgraph w = (Raise e, w') →
  mesh_objects (self w') = mesh_objects (self w)
  ∧ lights (self w') = lights (self w).
Proof.
  pose proof (rebuild_keeps_lists GPUShader_new np_memory
                (mesh_objects (self w)) (lights (self w))) as Hrebuild.
  destruct (truthy (scene_data (self w))) eqn:Hsynced.
  - rewrite view_update_later by done.
    assert (preserves (λ w1, mesh_objects (self w1) = mesh_objects (self w)
                             ∧ lights (self w1) = lights (self w))
              (for_each (updates depsgraph) update_body)) as Hloop.
    { apply preserves_for_each, Forall_forall. intros update _.
      destruct (update_id update); [|auto with preserves].
      destruct (_ && _); auto with preserves. }
    specialize (Hloop w (conj eq_refl eq_refl)).
    destruct (for_each _ _ _) as [[[]|e1] w1]; [done|].
    by intros [= <- <-].
  - rewrite view_update_first by done.
    assert (preserves (λ w1, mesh_objects (self w1) = mesh_objects (self w)
                             ∧ lights (self w1) = lights (self w))
              (for_each (ids depsgraph) sync_body)) as Hloop.
    { apply preserves_for_each, Forall_forall. intros [o|] _;
        [|auto with preserves].
      case_decide; auto with preserves. }
    specialize (Hloop (with_scene_data (Some [0]) w) (conj eq_refl eq_refl)).
    destruct (for_each _ _ _) as [[[]|e1] w1]; [done|].
    by intros [= <- <-].
Qed.

(** *** What a notification that returns has cached *)

Lemma rebuild_keeps_cached_for key o :
  preserves (cached_for key) (rebuild_entry o).
Proof.
  intros w (draw & o' & Hdraw & Hobj & Hname & Htype). rewrite rebuild_run.
  destruct (data o) as [mesh| |] eqn:Hdata; [|by exists draw, o'..].
  destruct (MeshDraw_init _ _ _ _ _) as [draw2|e]; [|by exists draw, o'].
  unfold cached_for. simpl.
  destruct (decide (name o = key)) as [<-|Hne].
  - exists (set_object draw2 o), o. rewrite lookup_insert_eq.
    split_and!; try done. unfold type. by rewrite Hdata.
  - exists draw, o'. by rewrite lookup_insert_ne.
Qed.

Lemma rebuild_caches o w w' :
  type o = MESH → rebuild_entry o w = (Ok tt, w') → cached_for (name o) w'.
Proof.
  intros Htype. rewrite rebuild_run. unfold type in Htype.
  destruct (data o) as [mesh| |] eqn:Hdata; [|done..].
  destruct (MeshDraw_init _ _ _ _ _) as [draw|e]; [|done].
  intros [= <-]. exists (set_object draw o), o. simpl.
  rewrite lookup_insert_eq. split_and!; try done.
  unfold type. by rewrite Hdata.
Qed.

Lemma first_loop_caches (l : list (ID F)) o w w' :
  for_each l sync_body w = (Ok tt, w') →
  IDObject o ∈ l → type o = MESH →
  cached_for (name o) w'.
Proof.
  intros Hrun Ho Htype.
  apply (for_each_establishes (cached_for (name o)) (λ _, True)
           l sync_body (IDObject o) w w'); try done.
  - intros [o2|] _; [|auto with preserves].
    case_decide; [apply rebuild_keeps_cached_for | auto with preserves].
  - intros s1 s2 _. rewrite decide_True by done. by apply rebuild_caches.
Qed.

(** X14: a first notification that returns has cached every mesh object
    among the datablocks, under its name, with a [MeshDraw] whose
    [object] is a mesh object of that name. *)
Theorem first_sync_caches_meshes depsgraph w w' o :
  truthy (scene_data (self w)) = false →
  view_update GPUShader_new np_memory depsgraph w = (Ok tt, w') →
  IDObject o ∈ ids depsgraph →
  type o = MESH →
  cached_for (name o) w'.
Proof.
  intros Hfirst Hrun Ho Htype. rewrite view_update_first in Hrun by done.
  destruct (for_each _ _ _) as [[[]|e] w1] eqn:Hloop; [|done].
  injection Hrun as <-.
  by apply (first_loop_caches _ _ _ _ Hloop Ho Htype).
Qed.

(** X15: first notification, then redraw.  When the first notification
    returns and every visible mesh instance is an object of a name that
    is among the datablocks as a mesh object, the frame returns: it
    draws one batch per instance and restores the GPU state. *)
Theorem draw_after_first_sync depsgraph w w' context log :
  truthy (scene_data (self w)) = false →
  view_update GPUShader_new np_memory depsgraph w = (Ok tt, w') →
  (∀ instance, instance ∈ object_instances depsgraph →
     type (instance_object instance) = MESH →
     ∃ o, IDObject o ∈ ids depsgraph ∧ type o = MESH
        ∧ name o = name (instance_object instance)) →
  ∃ calls,
    view_draw (self w') context log
    = (Ok tt, log ++ gpu_setup ++ calls ++ gpu_restore)
    ∧ length (drawn calls) = length (scan_mesh_objects depsgraph).
Proof.
  intros Hfirst Hrun Hids. rewrite view_update_first in Hrun by done.
  destruct (for_each _ _ _) as [[[]|e] w1] eqn:Hloop; [|done].
  injection Hrun as <-.
  assert (Forall (λ p, is_Some (draw_calls (self w1) !! name p))
            (scan_mesh_objects depsgraph)) as Hall.
  { apply Forall_forall. intros p [Htype Hp]%list_elem_of_filter.
    apply list_elem_of_fmap in Hp as (instance & -> & Hinstance).
    destruct (Hids instance Hinstance Htype) as (o & Ho & Hmesh & <-).
    destruct (first_loop_caches _ _ _ _ Hloop Ho Hmesh) as (draw & ? & -> & _).
    by eexists. }
  eexists. split; [by apply view_draw_all_cached|].
  simpl. rewrite drawn_instances by done. by apply length_cached_ids.
Qed.

(** *** A geometry update *)

Lemma rebuild_advances n o :
  preserves (λ w, n ≤ next_id w) (rebuild_entry o).
Proof.
  intros w Hw. rewrite rebuild_run.
  destruct (data o); [|done..].
  destruct (MeshDraw_init _ _ _ _ _); simpl; lia.
Qed.

(** The entry under [key] was allocated at or after [n]. *)
Local Abbreviation rebuilt_since n key :=
  (λ w : World F,
     ∃ draw, draw_calls (self w) !! key = Some draw
           ∧ n ≤ md_id draw ∧ md_id draw < next_id w).

Lemma rebuild_keeps_rebuilt n key o :
  preserves (rebuilt_since n key) (rebuild_entry o).
Proof.
  intros w (draw & Hdraw & Hge & Hlt). rewrite rebuild_run.
  destruct (data o) as [mesh| |]; [|by exists draw..].
  destruct (MeshDraw_init _ _ _ _ _) as [draw2|e] eqn:Hinit; simpl.
  - apply MeshDraw_init_Ok_inv in Hinit as (? & ? & ? & _ & _ & _ & ->).
    destruct (decide (name o = key)) as [<-|Hne].
    + eexists. rewrite lookup_insert_eq. split; [done|]. simpl. lia.
    + exists draw. rewrite lookup_insert_ne by done. split; [done|]. lia.
  - exists draw. split; [done|]. lia.
Qed.

Lemma rebuild_rebuilds n o w w' :
  type o = MESH → n ≤ next_id w → rebuild_entry o w = (Ok tt, w') →
  rebuilt_since n (name o) w'.
Proof.
  intros Htype Hn. rewrite rebuild_run. unfold type in Htype.
  destruct (data o) as [mesh| |]; [|done..].
  destruct (MeshDraw_init _ _ _ _ _) as [draw|e] eqn:Hinit; [|done].
  apply MeshDraw_init_Ok_inv in Hinit as (? & ? & ? & _ & _ & _ & ->).
  intros [= <-]. eexists. simpl. rewrite lookup_insert_eq.
  split; [done|]. simpl. lia.
Qed.

(** X16: after the first sync, a notification that returns and carries
    a geometry update of a mesh object has put a [MeshDraw] built during
    this notification under the object's name: it is a different object
    from every [MeshDraw] that was cached before. *)
Theorem geometry_update_rebuilds depsgraph w w' update o :
  truthy (scene_data (self w)) = true →
  cache_allocated w →
  view_update GPUShader_new np_memory depsgraph w = (Ok tt, w') →
  update ∈ updates depsgraph →
  update_id update = IDObject o →
  type o = MESH →
  is_updated_geometry update = true →
  ∃ draw, draw_calls (self w') !! name o = Some draw
        ∧ next_id w ≤ md_id draw < next_id w'
        ∧ ∀ key old, draw_calls (self w) !! key = Some old →
                     md_id old ≠ md_id draw.
Proof.
  intros Hsynced Halloc Hrun Hupdate Hid Htype Hgeometry.
  rewrite view_update_later in Hrun by done.
  destruct (for_each _ _ _) as [[[]|e] w1] eqn:Hloop; [|done].
  injection Hrun as <-.
  assert (rebuilt_since (next_id w) (name o) w1) as (draw & Hdraw & Hge & Hlt).
  { apply (for_each_establishes (rebuilt_since (next_id w) (name o))
             (λ w1, next_id w ≤ next_id w1)
             (updates depsgraph) update_body update w w1); try done.
    - intros u _. destruct (update_id u); [|auto with preserves].
      destruct (_ && _); [apply rebuild_advances | auto with preserves].
    - intros u _. destruct (update_id u); [|auto with preserves].
      destruct (_ && _); [apply rebuild_keeps_rebuilt | auto with preserves].
    - intros s1 s2 Hs1. rewrite Hid, Hgeometry, bool_decide_eq_true_2 by done.
      by apply rebuild_rebuilds. }
  exists draw. split_and!.
  - by destruct (id_type_updated depsgraph "OBJECT").
  - done.
  - by destruct (id_type_updated depsgraph "OBJECT").
  - intros key old Hold%Halloc. lia.
Qed.

End Cache.

(** ** Registration *)

Section Registration.
Implicit Types (h : Host) (panel : Panel) (r : nat).

Lemma get_panels_loop h (l acc : list Panel) :
  foldl (λ panels panel,
      match COMPAT_ENGINES panel with
      | Some r =>
          if bool_decide ("BLENDER_RENDER" ∈ set_objects h r) then
            if bool_decide (panel_name panel ∉
                 ({[ "VIEWLAYER_PT_filter"; "VIEWLAYER_PT_layer_passes" ]}
                    : gset string))
            then panels ++ [panel]
            else panels
          else panels
      | None => panels
      end)
    acc l
  = acc ++ filter (λ panel, selected h panel = true) l.
Proof.
  revert acc. induction l as [|panel l IH]; intros acc; simpl.
  - by rewrite app_nil_r.
  - rewrite IH. destruct (selected h panel) eqn:Hsel.
    + rewrite filter_cons_True by done. unfold selected in Hsel.
      destruct (COMPAT_ENGINES panel) as [r|]; [|done].
      apply andb_prop in Hsel as [-> ->]. by rewrite <- app_assoc.
    + rewrite filter_cons_False by (by rewrite Hsel). unfold selected in Hsel.
      destruct (COMPAT_ENGINES panel) as [r|]; [|done].
      destruct (bool_decide ("BLENDER_RENDER" ∈ set_objects h r)); [|done].
      simpl in Hsel. by rewrite Hsel.
Qed.

Lemma get_panels_filter h :
  get_panels h = filter (λ panel, selected h panel = true) (Panel_subclasses h).
Proof. unfold get_panels. by rewrite get_panels_loop. Qed.

(** X17: [get_panels] returns, in the order of the subclasses, exactly
    the panels that have a [COMPAT_ENGINES] with ['BLENDER_RENDER'] in it
    and are not one of the two excluded view-layer panels. *)
Theorem get_panels_selects h panel :
  panel ∈ get_panels h
  ↔ panel ∈ Panel_subclasses h
    ∧ (∃ r, COMPAT_ENGINES panel = Some r
          ∧ "BLENDER_RENDER" ∈ set_objects h r)
    ∧ panel_name panel ≠ "VIEWLAYER_PT_filter"
    ∧ panel_name panel ≠ "VIEWLAYER_PT_layer_passes".
Proof.
  rewrite get_panels_filter, list_elem_of_filter. unfold selected.
  destruct (COMPAT_ENGINES panel) as [r|].
  - rewrite andb_true_iff, !bool_decide_eq_true. split.
    + intros [[Hrender Hname] Hin]. split_and!; [done | by exists r | ..];
        set_solver.
    + intros (Hin & (r' & Hr & Hrender) & Hname1 & Hname2).
      injection Hr as <-. split_and!; [done | | done].
      apply not_elem_of_union. by rewrite !not_elem_of_singleton.
  - split; [by intros [? ?] | by intros (_ & (r & ? & _) & _)].
Qed.

Lemma get_panels_have_sets h panel :
  panel ∈ get_panels h → is_Some (COMPAT_ENGINES panel).
Proof. intros (_ & (r & -> & _) & _)%get_panels_selects. by eexists. Qed.

Lemma selected_sets_elem h panel r :
  panel ∈ get_panels h → COMPAT_ENGINES panel = Some r → r ∈ selected_sets h.
Proof.
  intros Hpanel Hr. unfold selected_sets. apply list_elem_of_omap.
  by exists panel.
Qed.

(** The panels that [get_panels] returns depend on the sets only through
    ['BLENDER_RENDER']. *)
Lemma get_panels_ext h1 h2 :
  Panel_subclasses h1 = Panel_subclasses h2 →
  (∀ r, "BLENDER_RENDER" ∈ set_objects h1 r
        ↔ "BLENDER_RENDER" ∈ set_objects h2 r) →
  get_panels h1 = get_panels h2.
Proof.
  intros Hsub Hrender. rewrite !get_panels_filter, Hsub.
  apply list_filter_iff. intros panel. unfold selected.
  destruct (COMPAT_ENGINES panel) as [r|]; [|done].
  by rewrite (bool_decide_ext _ _ (Hrender r)).
Qed.

(** One round of the loop of [register]. *)
Lemma add_step panel r0 h :
  COMPAT_ENGINES panel = Some r0 →
  bindM (getattr_COMPAT_ENGINES panel) (λ s, set_add s "CUSTOM") h
  = (Ok tt, with_set r0 ({["CUSTOM"]} ∪ set_objects h r0) h).
Proof. intros Hr0. unfold bindM, getattr_COMPAT_ENGINES. by rewrite Hr0. Qed.

(** One round of the loop of [unregister]: the guard keeps [remove]
    from raising. *)
Lemma remove_step panel r0 h :
  COMPAT_ENGINES panel = Some r0 →
  bindM (getattr_COMPAT_ENGINES panel) (λ s,
    bindM (set_contains s "CUSTOM") (λ present,
      if present then
        bindM (getattr_COMPAT_ENGINES panel) (λ s, set_remove s "CUSTOM")
      else retM tt)) h
  = (Ok tt,
     if bool_decide ("CUSTOM" ∈ set_objects h r0)
     then with_set r0 (set_objects h r0 ∖ {["CUSTOM"]}) h else h).
Proof.
  intros Hr0. unfold bindM, getattr_COMPAT_ENGINES, set_contains, set_remove.
  rewrite Hr0. unfold bindM, getM, retM.
  destruct (bool_decide ("CUSTOM" ∈ set_objects h r0)) eqn:Hpresent; [|done].
  by rewrite ?Hpresent.
Qed.

Lemma union_twice (s : gset string) (x : string) :
  {[x]} ∪ ({[x]} ∪ s) = {[x]} ∪ s.
Proof. apply set_eq. intros y. rewrite !elem_of_union. tauto. Qed.

Lemma difference_twice (s : gset string) (x : string) :
  s ∖ {[x]} ∖ {[x]} = s ∖ {[x]}.
Proof. apply set_eq. intros y. rewrite !elem_of_difference. tauto. Qed.

Lemma difference_absent (s : gset string) (x : string) :
  x ∉ s → s ∖ {[x]} = s.
Proof.
  intros Hx. apply set_eq. intros y.
  rewrite elem_of_difference, not_elem_of_singleton.
  split; [tauto|]. intros Hy. split; [done|]. by intros ->.
Qed.

Lemma union_difference (s : gset string) (x : string) :
  x ∉ s → ({[x]} ∪ s) ∖ {[x]} = s.
Proof.
  intros Hx. apply set_eq. intros y.
  rewrite elem_of_difference, elem_of_union, not_elem_of_singleton,
    elem_of_singleton.
  split; [tauto|]. intros Hy. split; [tauto|]. by intros ->.
Qed.

(** The state after one guarded removal. *)
Lemma removed_sets r0 h r :
  set_objects
    (if bool_decide ("CUSTOM" ∈ set_objects h r0)
     then with_set r0 (set_objects h r0 ∖ {["CUSTOM"]}) h else h) r
  = if decide (r = r0) then set_objects h r ∖ {["CUSTOM"]} else set_objects h r.
Proof.
  destruct (decide (r = r0)) as [->|Hne]; case_bool_decide; simpl.
  - by rewrite fn_lookup_insert.
  - by rewrite difference_absent.
  - by rewrite fn_lookup_insert_ne.
  - done.
Qed.

Lemma elem_of_cons_bool (r r0 : nat) (l : list nat) :
  bool_decide (r ∈ r0 :: l) = bool_decide (r = r0) || bool_decide (r ∈ l).
Proof.
  apply eq_true_iff_eq.
  rewrite orb_true_iff, !bool_decide_eq_true, elem_of_cons. done.
Qed.

Lemma add_loop (ps : list Panel) h :
  Forall (λ panel, is_Some (COMPAT_ENGINES panel)) ps →
  ∃ h', for_each ps (λ panel,
          bindM (getattr_COMPAT_ENGINES panel) (λ s, set_add s "CUSTOM")) h
        = (Ok tt, h')
      ∧ Panel_subclasses h' = Panel_subclasses h
      ∧ host_calls h' = host_calls h
      ∧ ∀ r, set_objects h' r
             = if bool_decide (r ∈ omap COMPAT_ENGINES ps)
               then {["CUSTOM"]} ∪ set_objects h r else set_objects h r.
Proof.
  intros Hps. revert h.
  induction Hps as [|panel ps [r0 Hr0] _ IH]; intros h.
  - exists h. by split_and!.
  - cbn [for_each]. unfold bindM at 1. rewrite (add_step _ r0) by done.
    destruct (IH (with_set r0 ({["CUSTOM"]} ∪ set_objects h r0) h))
      as (h' & -> & Hsub & Hcalls & Hsets).
    exists h'. split_and!; try done. intros r. rewrite Hsets.
    cbn [omap list_omap]. rewrite Hr0, elem_of_cons_bool. simpl.
    destruct (decide (r = r0)) as [->|Hne].
    + rewrite fn_lookup_insert, (bool_decide_eq_true_2 (r0 = r0)) by done.
      simpl. destruct (bool_decide (r0 ∈ _)); [apply union_twice | done].
    + rewrite fn_lookup_insert_ne, (bool_decide_eq_false_2 (r = r0)) by done.
      done.
Qed.

Lemma remove_loop (ps : list Panel) h :
  Forall (λ panel, is_Some (COMPAT_ENGINES panel)) ps →
  ∃ h', for_each ps (λ panel,
          bindM (getattr_COMPAT_ENGINES panel) (λ s,
            bindM (set_contains s "CUSTOM") (λ present,
              if present then
                bindM (getattr_COMPAT_ENGINES panel)
                  (λ s, set_remove s "CUSTOM")
              else retM tt))) h
        = (Ok tt, h')
      ∧ Panel_subclasses h' = Panel_subclasses h
      ∧ host_calls h' = host_calls h
      ∧ ∀ r, set_objects h' r
             = if bool_decide (r ∈ omap COMPAT_ENGINES ps)
               then set_objects h r ∖ {["CUSTOM"]} else set_objects h r.
Proof.
  intros Hps. revert h.
  induction Hps as [|panel ps [r0 Hr0] _ IH]; intros h.
  - exists h. by split_and!.
  - cbn [for_each]. unfold bindM at 1. rewrite (remove_step _ r0) by done.
    match goal with
    | |- context [for_each ps ?body ?h1] =>
        destruct (IH h1) as (h' & -> & Hsub & Hcalls & Hsets)
    end.
    exists h'. split_and!; [done | | |].
    { rewrite Hsub. by destruct (bool_decide _). }
    { rewrite Hcalls. by destruct (bool_decide _). }
    intros r. rewrite Hsets, removed_sets.
    cbn [omap list_omap]. rewrite Hr0, elem_of_cons_bool. simpl.
    destruct (decide (r = r0)) as [->|Hne].
    + rewrite (bool_decide_eq_true_2 (r0 = r0)) by done. simpl.
      destruct (bool_decide (r0 ∈ _)); [apply difference_twice | done].
    + by rewrite (bool_decide_eq_false_2 (r = r0)) by done.
Qed.

Lemma get_panels_Forall_sets h :
  Forall (λ panel, is_Some (COMPAT_ENGINES panel)) (get_panels h).
Proof. apply Forall_forall. intros panel. apply get_panels_have_sets. Qed.

(** [register()], run from [h]. *)
Lemma register_run h :
  ∃ h', register h = (Ok tt, h')
      ∧ Panel_subclasses h' = Panel_subclasses h
      ∧ host_calls h'
        = host_calls h
          ++ [ register_class "CustomRenderEngine";
               register_class "CustomRenderEngineSettings";
               register_class "CustomRenderEnginePanel";
               Scene_custom_render_engine "CustomRenderEngineSettings" ]
      ∧ ∀ r, set_objects h' r
             = if bool_decide (r ∈ selected_sets h)
               then {["CUSTOM"]} ∪ set_objects h r else set_objects h r.
Proof.
  set (h0 := {| Panel_subclasses := Panel_subclasses h;
                set_objects := set_objects h;
                host_calls := ((host_calls h
                                  ++ [register_class "CustomRenderEngine"])
                                 ++ [register_class "CustomRenderEngineSettings"])
                                ++ [register_class "CustomRenderEnginePanel"] |}).
  assert (for_each classes (λ cls, bpy_call (register_class cls)) h
          = (Ok tt, h0)) as Hclasses by reflexivity.
  destruct (add_loop (get_panels h0) h0 (get_panels_Forall_sets h0))
    as (h1 & Hrun & Hsub & Hcalls & Hsets).
  eexists. split.
  - unfold register. unfold bindM at 1. rewrite Hclasses.
    unfold bindM at 1. unfold getM at 1. unfold bindM at 1. rewrite Hrun.
    reflexivity.
  - simpl. split_and!; [done | | done].
    rewrite Hcalls. simpl. by rewrite <- !app_assoc.
Qed.

(** [unregister()], run from [h]. *)
Lemma unregister_run h :
  ∃ h', unregister h = (Ok tt, h')
      ∧ Panel_subclasses h' = Panel_subclasses h
      ∧ host_calls h'
        = host_calls h
          ++ [ unregister_class "CustomRenderEngine";
               unregister_class "CustomRenderEngineSettings";
               unregister_class "CustomRenderEnginePanel" ]
      ∧ ∀ r, set_objects h' r
             = if bool_decide (r ∈ selected_sets h)
               then set_objects h r ∖ {["CUSTOM"]} else set_objects h r.
Proof.
  set (h0 := {| Panel_subclasses := Panel_subclasses h;
                set_objects := set_objects h;
                host_calls := ((host_calls h
                                  ++ [unregister_class "CustomRenderEngine"])
                                 ++ [unregister_class "CustomRenderEngineSettings"])
                                ++ [unregister_class "CustomRenderEnginePanel"] |}).
  assert (for_each classes (λ cls, bpy_call (unregister_class cls)) h
          = (Ok tt, h0)) as Hclasses by reflexivity.
  destruct (remove_loop (get_panels h0) h0 (get_panels_Forall_sets h0))
    as (h1 & Hrun & Hsub & Hcalls & Hsets).
  exists h1. split.
  - unfold unregister. unfold bindM at 1. rewrite Hclasses.
    unfold bindM at 1. unfold getM at 1. exact Hrun.
  - split_and!; [done | | done].
    rewrite Hcalls. simpl. by rewrite <- !app_assoc.
Qed.

(** X18: [register] returns; afterwards every panel of [get_panels]
    lists ['CUSTOM'], the same panels are selected as before, no other
    engine name is added or removed anywhere, and a set that no panel of
    [get_panels] refers to is unchanged. *)
Theorem register_adds_engine h :
  ∃ h', register h = (Ok tt, h')
      ∧ (∀ panel, panel ∈ get_panels h →
           ∃ r, COMPAT_ENGINES panel = Some r ∧ "CUSTOM" ∈ set_objects h' r)
      ∧ get_panels h' = get_panels h
      ∧ (∀ r x, x ≠ "CUSTOM" →
           x ∈ set_objects h' r ↔ x ∈ set_objects h r)
      ∧ (∀ r, r ∉ selected_sets h → set_objects h' r = set_objects h r).
Proof.
  destruct (register_run h) as (h' & Hrun & Hsub & _ & Hsets).
  assert (∀ r x, x ≠ "CUSTOM" →
            x ∈ set_objects h' r ↔ x ∈ set_objects h r) as Hother.
  { intros r x Hx. rewrite Hsets. destruct (bool_decide _); [|done].
    rewrite elem_of_union, elem_of_singleton. tauto. }
  exists h'. split_and!; try done.
  - intros panel Hpanel.
    destruct (get_panels_have_sets _ _ Hpanel) as [r Hr]. exists r.
    split; [done|]. rewrite Hsets.
    rewrite bool_decide_eq_true_2 by (by eapply selected_sets_elem).
    apply elem_of_union_l. by apply elem_of_singleton.
  - apply get_panels_ext; [done|]. intros r. by apply Hother.
  - intros r Hr. by rewrite Hsets, bool_decide_eq_false_2.
Qed.

(** [unregister()] is its [unregister_class] calls followed by the
    panel loop. *)
Lemma unregister_then_panels :
  unregister
  = bindM (for_each classes (λ cls, bpy_call (unregister_class cls)))
      (λ _, unregister_panels).
Proof. reflexivity. Qed.

(** X19: the panel loop of [unregister] never raises, whatever the sets
    hold: the guard keeps [remove] from raising [KeyError] when a set has
    no ['CUSTOM'] and when panels share a set.  Afterwards no panel of
    [get_panels] lists ['CUSTOM'], nothing else is changed in any set,
    and no host call was made. *)
Theorem unregister_panels_never_raise h :
  ∃ h', unregister_panels h = (Ok tt, h')
      ∧ (∀ panel, panel ∈ get_panels h →
           ∃ r, COMPAT_ENGINES panel = Some r ∧ "CUSTOM" ∉ set_objects h' r)
      ∧ (∀ r x, x ≠ "CUSTOM" →
           x ∈ set_objects h' r ↔ x ∈ set_objects h r)
      ∧ (∀ r, r ∉ selected_sets h → set_objects h' r = set_objects h r)
      ∧ Panel_subclasses h' = Panel_subclasses h
      ∧ host_calls h' = host_calls h.
Proof.
  destruct (remove_loop (get_panels h) h (get_panels_Forall_sets h))
    as (h' & Hrun & Hsub & Hcalls & Hsets).
  exists h'. split_and!; try done.
  - intros panel Hpanel.
    destruct (get_panels_have_sets _ _ Hpanel) as [r Hr]. exists r.
    split; [done|]. rewrite Hsets.
    rewrite bool_decide_eq_true_2 by (by eapply selected_sets_elem).
    rewrite elem_of_difference, elem_of_singleton. tauto.
  - intros r x Hx. rewrite Hsets. destruct (bool_decide _); [|done].
    rewrite elem_of_difference, elem_of_singleton. tauto.
  - intros r Hr. by rewrite Hsets, bool_decide_eq_false_2.
Qed.

(** X20: [register] followed by [unregister] gives every set back as it
    was, provided that no set of a panel of [get_panels] listed
    ['CUSTOM'] before; the [Scene.custom_render_engine] property that
    [register] assigned is not deleted. *)
Theorem register_unregister_round_trip h :
  (∀ r, r ∈ selected_sets h → "CUSTOM" ∉ set_objects h r) →
  ∃ h1 h2, register h = (Ok tt, h1)
         ∧ unregister h1 = (Ok tt, h2)
         ∧ Panel_subclasses h2 = Panel_subclasses h
         ∧ (∀ r, set_objects h2 r = set_objects h r)
         ∧ host_calls h2
           = host_calls h
             ++ [ register_class "CustomRenderEngine";
                  register_class "CustomRenderEngineSettings";
                  register_class "CustomRenderEnginePanel";
                  Scene_custom_render_engine "CustomRenderEngineSettings";
                  unregister_class "CustomRenderEngine";
                  unregister_class "CustomRenderEngineSettings";
                  unregister_class "CustomRenderEnginePanel" ].
Proof.
  intros Hfresh.
  destruct (register_run h) as (h1 & Hrun1 & Hsub1 & Hcalls1 & Hsets1).
  destruct (unregister_run h1) as (h2 & Hrun2 & Hsub2 & Hcalls2 & Hsets2).
  assert (get_panels h1 = get_panels h) as Hpanels.
  { apply get_panels_ext; [done|]. intros r. rewrite Hsets1.
    destruct (bool_decide _); [|done].
    rewrite elem_of_union, elem_of_singleton.
    split; [by intros [[=]|?] | tauto]. }
  exists h1, h2. split_and!; try done.
  - by rewrite Hsub2.
  - intros r. rewrite Hsets2, Hsets1. unfold selected_sets. rewrite Hpanels.
    fold (selected_sets h).
    destruct (bool_decide (r ∈ selected_sets h)) eqn:Hr; [|done].
    apply bool_decide_eq_true in Hr. by apply union_difference, Hfresh.
  - rewrite Hcalls2, Hcalls1. by rewrite <- app_assoc.
Qed.

End Registration.

(** ** The further properties on concrete scenes *)

Section ConcreteMore.
Import Scene Examples.
Open Scope Z_scope.

Lemma positions_gathered_triangle :
  ∃ d, MeshDraw_init (Ok full_shader) (memory 0) 0 triangle None = Ok d
     ∧ (positions (batch d) !! 1%nat = Some (0, 0, 0)
        ↔ ∃ l v, loops triangle !! 1%nat = Some l
               ∧ vertices triangle !! vertex_index l = Some v
               ∧ co v = (0, 0, 0)).
Proof.
  eexists. split; [reflexivity|].
  apply (positions_gathered (Ok full_shader) (memory 0) 0 triangle None).
  reflexivity.
Defined.

Lemma normals_and_indices_copied_square :
  ∃ d, MeshDraw_init (Ok full_shader) (memory 0) 0 square None = Ok d
     ∧ (normals (batch d) = normal <$> loops square
        ∧ indices (batch d) = tri_loops <$> loop_triangles square).
Proof.
  eexists. split; [reflexivity|].
  apply (normals_and_indices_copied (Ok full_shader) (memory 0) 0 square None).
  reflexivity.
Defined.

Lemma vertex_index_out_of_range_broken :
  (calc_tangents broken_triangle = Ok tt
   ∨ calc_tangents broken_triangle = Raise RuntimeError)
  ∧ ¬ loops_on_vertices broken_triangle
  ∧ MeshDraw_init (Ok full_shader) (memory 0) 0 broken_triangle None
    = Raise IndexError.
Proof.
  assert (¬ loops_on_vertices broken_triangle) as Hbroken.
  { intros Hv. apply Forall_cons in Hv as [_ Hv].
    apply Forall_cons in Hv as [Hv _]. simpl in Hv. lia. }
  split_and!; [by left | exact Hbroken |].
  apply (vertex_index_out_of_range (Ok full_shader) (memory 0) 0
           broken_triangle None); [by left | exact Hbroken].
Defined.


Lemma empty_mesh_builds_loose_vertices :
  loops loose_vertices = []
  ∧ (calc_tangents loose_vertices = Ok tt
     ∨ calc_tangents loose_vertices = Raise RuntimeError)
  ∧ color_layer_fits loose_vertices
  ∧ ∃ d, MeshDraw_init (Ok full_shader) (memory 0) 0 loose_vertices None = Ok d
       ∧ positions (batch d) = [] ∧ normals (batch d) = []
       ∧ colors (batch d) = [].
Proof.
  split_and!; [reflexivity | by right | reflexivity |].
  apply (empty_mesh_builds full_shader (memory 0) 0 loose_vertices None);
    [reflexivity | by right | reflexivity].
Defined.

Lemma all_uniforms_bound_full :
  renderer_uniforms ⊆ uniform_names (shader full_draw)
  ∧ ∃ m, pack_lights six_lights = Ok m
       ∧ MeshDraw_draw full_draw identity (region_data context) six_lights
           settings []
         = (Ok tt,
            [] ++ [shader_bind (md_id full_draw)]
               ++ ((λ b, shader_uniform (md_id full_draw) b.1 b.2) <$>
                     uniform_bindings identity (region_data context) m settings)
               ++ [batch_draw (md_id full_draw)]).
Proof.
  assert (renderer_uniforms ⊆ uniform_names (shader full_draw)) as Hnames
    by (by intros x Hx).
  split; [exact Hnames|].
  apply (all_uniforms_bound full_draw identity (region_data context)
           six_lights settings [] Hnames).
Defined.

Lemma directional_lights_layout_six :
  ∃ m, pack_lights six_lights = Ok m
     ∧ (components (row0 (transposed m)) = pad4 ((λ v, v.1.1) <$> six_lights)
        ∧ components (row1 (transposed m)) = pad4 ((λ v, v.1.2) <$> six_lights)
        ∧ components (row2 (transposed m)) = pad4 ((λ v, v.2) <$> six_lights)
        ∧ row3 (transposed m) = zero4).
Proof.
  eexists. split; [reflexivity|].
  apply (directional_lights_layout six_lights). reflexivity.
Defined.

Lemma frame_after_first_sync :
  Forall (λ p, is_Some (draw_calls (self (run [first_sync])) !! name p))
    (mesh_objects (self (run [first_sync])))
  ∧ ∃ calls,
      view_draw (self (run [first_sync])) context []
      = (Ok tt, [] ++ gpu_setup ++ calls ++ gpu_restore)
      ∧ drawn calls
        = omap (λ o, md_id <$> draw_calls (self (run [first_sync])) !! name o)
            (mesh_objects (self (run [first_sync])))
      ∧ length (drawn calls) = length (mesh_objects (self (run [first_sync]))).
Proof.
  assert (Forall (λ p, is_Some (draw_calls (self (run [first_sync])) !! name p))
            (mesh_objects (self (run [first_sync])))) as Hall
    by (repeat constructor; eexists; vm_compute; reflexivity).
  split; [exact Hall|].
  apply (frame_draws_each_instance_once (self (run [first_sync])) context []
           Hall).
Defined.

Lemma cache_never_evicts_renamed :
  is_Some (draw_calls (self (run [first_sync])) !! "Triangle")
  ∧ is_Some (draw_calls
               (self (view_update (Ok full_shader) memory renamed
                        (run [first_sync])).2) !! "Triangle").
Proof.
  assert (is_Some (draw_calls (self (run [first_sync])) !! "Triangle"))
    as Hcached by (eexists; vm_compute; reflexivity).
  split; [exact Hcached|].
  apply (cache_never_evicts (Ok full_shader) memory renamed
           (run [first_sync]) "Triangle" Hcached).
Defined.

Lemma cache_entries_unshared_first_sync :
  cache_allocated boot ∧ cache_unshared boot
  ∧ cache_allocated (view_update (Ok full_shader) memory first_sync boot).2
  ∧ cache_unshared (view_update (Ok full_shader) memory first_sync boot).2.
Proof.
  assert (cache_allocated boot) as Halloc by (by intros key draw Hdraw).
  assert (cache_unshared boot) as Hunshared
    by (by intros key1 key2 draw1 draw2 Hdraw).
  split_and!; [exact Halloc | exact Hunshared | ..];
    apply (cache_entries_unshared (Ok full_shader) memory first_sync boot
             Halloc Hunshared).
Defined.

Lemma failed_notification_keeps_lists_breaking :
  view_update (Ok full_shader) memory breaking (run [first_sync])
  = (Raise IndexError,
     (view_update (Ok full_shader) memory breaking (run [first_sync])).2)
  ∧ mesh_objects
      (self (view_update (Ok full_shader) memory breaking (run [first_sync])).2)
    = mesh_objects (self (run [first_sync]))
  ∧ lights
      (self (view_update (Ok full_shader) memory breaking (run [first_sync])).2)
    = lights (self (run [first_sync])).
Proof.
  assert (view_update (Ok full_shader) memory breaking (run [first_sync])
          = (Raise IndexError,
             (view_update (Ok full_shader) memory breaking
                (run [first_sync])).2)) as Hraise by (vm_compute; reflexivity).
  split; [exact Hraise|].
  apply (failed_notification_keeps_lists (Ok full_shader) memory breaking
           (run [first_sync]) IndexError _ Hraise).
Defined.

Lemma first_sync_caches_floor :
  truthy (scene_data (self boot)) = false
  ∧ view_update (Ok full_shader) memory first_sync boot
    = (Ok tt, run [first_sync])
  ∧ IDObject Floor ∈ ids first_sync
  ∧ type Floor = MESH
  ∧ cached_for (name Floor) (run [first_sync]).
Proof.
  assert (view_update (Ok full_shader) memory first_sync boot
          = (Ok tt, run [first_sync])) as Hrun by (vm_compute; reflexivity).
  assert (IDObject Floor ∈ ids first_sync) as Hfloor
    by (do 3 apply list_elem_of_further; apply list_elem_of_here).
  split_and!; [reflexivity | exact Hrun | exact Hfloor | reflexivity |].
  apply (first_sync_caches_meshes (Ok full_shader) memory first_sync boot
           (run [first_sync]) Floor eq_refl Hrun Hfloor eq_refl).
Defined.

Lemma draw_after_first_sync_scene :
  truthy (scene_data (self boot)) = false
  ∧ view_update (Ok full_shader) memory first_sync boot
    = (Ok tt, run [first_sync])
  ∧ (∀ instance, instance ∈ object_instances first_sync →
       type (instance_object instance) = MESH →
       ∃ o, IDObject o ∈ ids first_sync ∧ type o = MESH
          ∧ name o = name (instance_object instance))
  ∧ ∃ calls,
      view_draw (self (run [first_sync])) context []
      = (Ok tt, [] ++ gpu_setup ++ calls ++ gpu_restore)
      ∧ length (drawn calls) = length (scan_mesh_objects first_sync).
Proof.
  assert (view_update (Ok full_shader) memory first_sync boot
          = (Ok tt, run [first_sync])) as Hrun by (vm_compute; reflexivity).
  assert (∀ instance, instance ∈ object_instances first_sync →
            type (instance_object instance) = MESH →
            ∃ o, IDObject o ∈ ids first_sync ∧ type o = MESH
               ∧ name o = name (instance_object instance)) as Hids.
  { intros instance Hin Htype. exists (instance_object instance).
    split_and!; [|done..].
    repeat (apply elem_of_cons in Hin as [-> | Hin]);
      [| | | discriminate Htype..| by apply elem_of_nil in Hin].
    - apply list_elem_of_here.
    - do 2 apply list_elem_of_further. apply list_elem_of_here.
    - do 3 apply list_elem_of_further. apply list_elem_of_here. }
  split_and!; [reflexivity | exact Hrun | exact Hids |].
  apply (draw_after_first_sync (Ok full_shader) memory first_sync boot
           (run [first_sync]) context [] eq_refl Hrun Hids).
Defined.

Lemma first_sync_allocated : cache_allocated (run [first_sync]).
Proof.
  refine (proj1 (view_update_preserves (Ok full_shader) memory
                   (λ w, cache_allocated w ∧ cache_unshared w) first_sync
                   _ (rebuild_keeps_identities (Ok full_shader) memory) _ _
                   boot _)); done.
Qed.

Lemma geometry_update_rebuilds_square :
  truthy (scene_data (self (run [first_sync]))) = true
  ∧ cache_allocated (run [first_sync])
  ∧ view_update (Ok full_shader) memory edited (run [first_sync])
    = (Ok tt, run [first_sync; edited])
  ∧ {| update_id := IDObject Square; is_updated_geometry := true |}
    ∈ updates edited
  ∧ ∃ draw, draw_calls (self (run [first_sync; edited])) !! name Square
            = Some draw
          ∧ (next_id (run [first_sync]) ≤ md_id draw
             < next_id (run [first_sync; edited]))%nat
          ∧ ∀ key old, draw_calls (self (run [first_sync])) !! key = Some old →
                       md_id old ≠ md_id draw.
Proof.
  assert (view_update (Ok full_shader) memory edited (run [first_sync])
          = (Ok tt, run [first_sync; edited])) as Hrun
    by (vm_compute; reflexivity).
  assert ({| update_id := IDObject Square; is_updated_geometry := true |}
          ∈ updates edited) as Hupdate by apply list_elem_of_here.
  split_and!;
    [reflexivity | exact first_sync_allocated | exact Hrun | exact Hupdate |].
  apply (geometry_update_rebuilds (Ok full_shader) memory edited
           (run [first_sync]) (run [first_sync; edited]) _ Square
           eq_refl first_sync_allocated Hrun Hupdate eq_refl eq_refl eq_refl).
Defined.

Lemma register_unregister_round_trip_host :
  (∀ r, r ∈ selected_sets host → "CUSTOM" ∉ set_objects host r)
  ∧ ∃ h1 h2, register host = (Ok tt, h1)
           ∧ unregister h1 = (Ok tt, h2)
           ∧ Panel_subclasses h2 = Panel_subclasses host
           ∧ (∀ r, set_objects h2 r = set_objects host r)
           ∧ host_calls h2
             = host_calls host
               ++ [ register_class "CustomRenderEngine";
                    register_class "CustomRenderEngineSettings";
                    register_class "CustomRenderEnginePanel";
                    Scene_custom_render_engine "CustomRenderEngineSettings";
                    unregister_class "CustomRenderEngine";
                    unregister_class "CustomRenderEngineSettings";
                    unregister_class "CustomRenderEnginePanel" ].
Proof.
  assert (∀ r, r ∈ selected_sets host → "CUSTOM" ∉ set_objects host r)
    as Hfresh.
  { intros r Hr.
    assert (selected_sets host = [0; 0; 3]%nat) as Hsets
      by (vm_compute; reflexivity).
    rewrite Hsets in Hr.
    repeat (apply elem_of_cons in Hr as [-> | Hr]);
      [..| by apply elem_of_nil in Hr];
      apply (bool_decide_unpack _); vm_compute; exact I. }
  split; [exact Hfresh|].
  apply (register_unregister_round_trip host Hfresh).
Defined.

(** Panels that share a set are registered together, also the one whose
    name [get_panels] leaves out. *)
Example shared_set_registers_both :
  (register host).1 = Ok tt
  ∧ elements (set_objects (register host).2 0)
    = ["CUSTOM"; "BLENDER_EEVEE"; "BLENDER_RENDER"]
  ∧ elements (set_objects (register host).2 1) = ["BLENDER_RENDER"]
  ∧ elements (set_objects (register host).2 2) = ["CYCLES"]
  ∧ (unregister_panels host).1 = Ok tt.
Proof. by vm_compute. Qed.

End ConcreteMore.
